(** * Market-data refresh orchestrator and recommendation engine

    A shallow embedding of the dashboard page of the repository (the
    [CryptoDashboard] component): the two daily staleness checks of the
    candle feed, the fan-out over the universe of 50 coins, the
    multi-factor recommendation, and the timers and asynchronous fetches
    that drive them.

    Conventions.
    - A JavaScript number is an exact rational extended with the IEEE
      special values [+Infinity], [-Infinity] and [NaN] (type [num]).
      Finite arithmetic is exact: the rounding error of binary floating
      point, the sign of zero and overflow are outside the model.  A number
      that arrives in a JSON body is finite, hence of type [Q].
    - A [Date] is its broken-down local time.
    - A body is taken with the fields that the page reads from it.
    - An [async] function is a resumable process ([Proc]).  The event loop
      ([Scheduler.step]) takes one event at a time: a tick of an interval,
      the settlement of one awaited request, or the selection of a coin.
      A function reads the state of the render that created it (its
      closure) and writes the live store.
    - Left out: the list of available coins and its dropdown, the start of
      the background collector, the two one-second countdown effects, the
      effect that recomputes the recommendation, and all rendering. *)

From Stdlib Require Import QArith Qround Qabs Qminmax Lqa ZArith Lia.
From Stdlib Require Import List String Ascii Bool Permutation Sorted DecimalString.
Import ListNotations.

Set Implicit Arguments.

(* ================================================================= *)
(** ** JavaScript numbers *)

Module Num.

Inductive num : Type :=
| Fin (q : Q)
| PInf
| NInf
| NaN.

Definition Qlt_bool (a b : Q) : bool := negb (Qle_bool b a).

(** Sign of a number as a [comparison] with zero ([Eq] also for [NaN]). *)
Definition sign (x : num) : comparison :=
  match x with
  | Fin q => (q ?= 0)%Q
  | PInf => Gt
  | NInf => Lt
  | NaN => Eq
  end.

Definition inf_of (c : comparison) : num :=
  match c with
  | Gt => PInf
  | Lt => NInf
  | Eq => NaN
  end.

Definition sign_mul (a b : comparison) : comparison :=
  match a, b with
  | Eq, _ | _, Eq => Eq
  | Gt, c => c
  | Lt, c => CompOpp c
  end.

Definition neg (x : num) : num :=
  match x with
  | Fin q => Fin (- q)
  | PInf => NInf
  | NInf => PInf
  | NaN => NaN
  end.

Definition add (x y : num) : num :=
  match x, y with
  | Fin a, Fin b => Fin (a + b)
  | NaN, _ | _, NaN => NaN
  | PInf, NInf | NInf, PInf => NaN
  | PInf, _ | _, PInf => PInf
  | NInf, _ | _, NInf => NInf
  end.

Definition sub (x y : num) : num := add x (neg y).

Definition mul (x y : num) : num :=
  match x, y with
  | Fin a, Fin b => Fin (a * b)
  | NaN, _ | _, NaN => NaN
  | _, _ => inf_of (sign_mul (sign x) (sign y))
  end.

(** Division: [a/0] is an infinity signed like [a], and [0/0] is [NaN]. *)
Definition div (x y : num) : num :=
  match x, y with
  | NaN, _ | _, NaN => NaN
  | Fin a, Fin b =>
      if Qeq_bool b 0 then inf_of (a ?= 0)%Q else Fin (a / b)
  | Fin _, _ => Fin 0
  | _, Fin b => if Qlt_bool b 0 then neg x else x
  | _, _ => NaN
  end.

(** Comparisons; every comparison with [NaN] is false. *)
Definition lt (x y : num) : bool :=
  match x, y with
  | NaN, _ | _, NaN => false
  | Fin a, Fin b => Qlt_bool a b
  | NInf, NInf => false
  | NInf, _ => true
  | _, PInf => match x with PInf => false | _ => true end
  | _, _ => false
  end.

Definition le (x y : num) : bool :=
  match x, y with
  | NaN, _ | _, NaN => false
  | Fin a, Fin b => Qle_bool a b
  | NInf, _ => true
  | _, PInf => true
  | _, _ => false
  end.

Definition gt (x y : num) : bool := lt y x.
Definition ge (x y : num) : bool := le y x.

(** [Math.min], [Math.max], [Math.abs], [Math.round]. *)
Definition min (x y : num) : num :=
  match x, y with
  | NaN, _ | _, NaN => NaN
  | _, _ => if le x y then x else y
  end.

Definition max (x y : num) : num :=
  match x, y with
  | NaN, _ | _, NaN => NaN
  | _, _ => if le x y then y else x
  end.

Definition abs (x : num) : num :=
  match x with
  | Fin q => Fin (Qabs q)
  | PInf | NInf => PInf
  | NaN => NaN
  end.

(** [Math.round] rounds to the nearest integer, halves upwards. *)
Definition round (x : num) : num :=
  match x with
  | Fin q => Fin (inject_Z (Qfloor (q + (1 # 2))))
  | _ => x
  end.

(** [lo <= x <= hi]; false on [NaN]. *)
Definition between (lo hi : Q) (x : num) : bool :=
  le (Fin lo) x && le x (Fin hi).

(** Equality of numbers up to the representation of a fraction. *)
Definition eqn (x y : num) : Prop :=
  match x, y with
  | Fin a, Fin b => (a == b)%Q
  | PInf, PInf | NInf, NInf | NaN, NaN => True
  | _, _ => False
  end.

End Num.

Import Num.
Coercion Fin : Q >-> num.

Declare Scope js_scope.
Delimit Scope js_scope with js.
Bind Scope js_scope with num.
Infix "+" := add : js_scope.
Infix "-" := sub : js_scope.
Infix "*" := mul : js_scope.
Infix "/" := div : js_scope.
Infix "<?" := lt (at level 70) : js_scope.
Infix "<=?" := le (at level 70) : js_scope.
Infix ">?" := gt (at level 70) : js_scope.
Infix ">=?" := ge (at level 70) : js_scope.

Local Open Scope string_scope.
Local Open Scope Z_scope.

(* ================================================================= *)
(** ** Dates *)

Module Clock.

(** The local broken-down time that the [Date] getters return:
    [getMonth] counts from 0, [getDate] is the day of the month and
    [getDay] the day of the week, Sunday being 0. *)
Record Date : Type := mkDate {
  getFullYear : Z;
  getMonth : Z;
  getDate : Z;
  getDay : Z;
  getHours : Z;
  getMinutes : Z;
  getSeconds : Z
}.

Definition dayNames : list string :=
  ["Sun"; "Mon"; "Tue"; "Wed"; "Thu"; "Fri"; "Sat"].

Definition monthNames : list string :=
  ["Jan"; "Feb"; "Mar"; "Apr"; "May"; "Jun";
   "Jul"; "Aug"; "Sep"; "Oct"; "Nov"; "Dec"].

Definition digit (n : Z) : ascii := ascii_of_N (48 + Z.to_N n).

Definition pad2 (n : Z) : string :=
  String (digit (n / 10)) (String (digit (n mod 10)) "").

Definition pad4 (n : Z) : string :=
  String (digit (n / 1000)) (String (digit (n / 100 mod 10)) (pad2 (n mod 100))).

(** [Date.prototype.toDateString], e.g. ["Mon Nov 02 2026"]. *)
Definition toDateString (d : Date) : string :=
  nth (Z.to_nat (getDay d)) dayNames "" ++ " " ++
  nth (Z.to_nat (getMonth d)) monthNames "" ++ " " ++
  pad2 (getDate d) ++ " " ++ pad4 (getFullYear d).

(** The ranges of the getters (years of four digits). *)
Definition wellFormed (d : Date) : Prop :=
  0 <= getFullYear d <= 9999 /\ 0 <= getMonth d <= 11 /\
  1 <= getDate d <= 31 /\ 0 <= getDay d <= 6.

(** Two instants of one calendar day. *)
Definition sameCalendarDay (a b : Date) : Prop :=
  getFullYear a = getFullYear b /\ getMonth a = getMonth b /\
  getDate a = getDate b /\ getDay a = getDay b.

(** [a] falls on a calendar day before that of [b]. *)
Definition earlierDay (a b : Date) : Prop :=
  getFullYear a < getFullYear b \/
  (getFullYear a = getFullYear b /\
   (getMonth a < getMonth b \/
    (getMonth a = getMonth b /\ getDate a < getDate b))).

(** Minutes from [a] to [b] when both lie in one month of one year. *)
Definition minutesBetween (a b : Date) : Z :=
  ((getDate b - getDate a) * 24 + (getHours b - getHours a)) * 60
  + (getMinutes b - getMinutes a).

(** [toLocaleTimeString], in the 24-hour form [hh:mm:ss]. *)
Definition toLocaleTimeString (d : Date) : string :=
  pad2 (getHours d) ++ ":" ++ pad2 (getMinutes d) ++ ":" ++ pad2 (getSeconds d).

End Clock.

Import Clock.

(* ================================================================= *)
(** ** Staleness of the candle feed *)

Module Staleness.

(** The candle dataset as the page uses it: its server-side stamp
    [fetched_at] and its size; the OHLCV rows and indicator columns go to
    the chart untouched. *)
Record CandleData : Type := mkCandleData {
  fetched_at : Date;
  data_points : Z
}.

(** [shouldUpdateCandleData]: [today] is [new Date().toDateString()]. *)
Definition shouldUpdateCandleData
    (lastCandleFetchDate : string) (candleData : option CandleData)
    (now : Date) : bool :=
  let today := toDateString now in
  negb (String.eqb lastCandleFetchDate today)
  || match candleData with None => true | Some _ => false end.

(** The [shouldUpdate] constant computed inside [fetchCandleData]. *)
Definition shouldUpdate (candleData : option CandleData) (now : Date) : bool :=
  match candleData with
  | None => true
  | Some c => negb (getDate (fetched_at c) =? getDate now)
  end.

End Staleness.

Import Staleness.

(* ================================================================= *)
(** ** Printing numbers *)

Module Show.

Definition showZ (z : Z) : string := NilZero.string_of_int (Z.to_int z).

(** [Number.prototype.toString] on the integral values that the page
    interpolates into its messages (counts and results of [Math.round]). *)
Definition toString (x : num) : string :=
  match x with
  | Fin q => showZ (Qfloor q)
  | PInf => "Infinity"
  | NInf => "-Infinity"
  | NaN => "NaN"
  end.

(** [x.toFixed(1)]: the nearest tenth, a tie going away from zero, the
    sign of a negative number kept. *)
Definition toFixed1 (x : num) : string :=
  match x with
  | Fin q =>
      let n := Qfloor (Qabs q * 10 + (1 # 2)) in
      (if Qlt_bool q 0 then "-" else "") ++
      showZ (n / 10) ++ "." ++ showZ (n mod 10)
  | _ => toString x
  end.

End Show.

Import Show.

(* ================================================================= *)
(** ** The recommendation engine *)

Module Engine.

(** Body of [/api/news-analysis]: [data.total] and [data.summary]. *)
Record NewsSummary : Type := mkNewsSummary {
  positive_count : Q;
  negative_count : Q;
  neutral_count : Q
}.

Record NewsData : Type := mkNewsData {
  total : Q;
  summary : NewsSummary
}.

(** The four indicator votes of [tradingSignals.signals]. *)
Record Signals : Type := mkSignals {
  rsi_signal : string;
  macd_signal : string;
  moving_average_signal : string;
  bollinger_signal : string
}.

Record TradingSignals : Type := mkTradingSignals {
  signals : option Signals
}.

Record Prediction : Type := mkPrediction {
  minutes_ahead : Q;
  predicted_price : Q
}.

Record ForecastData : Type := mkForecastData {
  error : bool;
  predictions : option (list Prediction)
}.

(** [CryptoData] of [lib/types]. *)
Record CryptoData : Type := mkCryptoData {
  id : string;
  symbol : string;
  name : string;
  current_price : Q;
  market_cap : Q;
  total_volume : Q
}.

Inductive Action : Type := BUY | SELL | NEUTRAL.

Record Breakdown : Type := mkBreakdown {
  news : num;
  technical : num;
  forecast : num
}.

Record Recommendation : Type := mkRecommendation {
  action : Action;
  confidence : num;
  breakdown : Breakdown;
  reasoning : list string
}.

Local Open Scope js_scope.

(** News sentiment score and its reasoning (lines 365-387). *)
Definition newsSignal (newsAnalysisData : option NewsData) : num * list string :=
  match newsAnalysisData with
  | Some d =>
      if Fin (total d) >? 0%Q then
        let positiveRatio := Fin (positive_count (summary d)) / Fin (total d) in
        let negativeRatio := Fin (negative_count (summary d)) / Fin (total d) in
        if positiveRatio >? 0.6%Q then
          (75%Q + positiveRatio * 25%Q,
           [toString (round (positiveRatio * 100%Q)) ++ "% positive news sentiment"]%string)
        else if negativeRatio >? 0.6%Q then
          (25%Q - negativeRatio * 25%Q,
           [toString (round (negativeRatio * 100%Q)) ++ "% negative news sentiment"]%string)
        else
          (40%Q + (positiveRatio - negativeRatio) * 20%Q,
           ["Mixed news sentiment (" ++ toString (round (positiveRatio * 100%Q))
            ++ "% positive, " ++ toString (round (negativeRatio * 100%Q))
            ++ "% negative)"]%string)
      else (Fin 50, ["No recent news data available"%string])
  | None => (Fin 50, ["No recent news data available"%string])
  end.

(** One vote: what it adds to the bullish and to the bearish count. *)
Definition vote (s : string) (counts : nat * nat) : nat * nat :=
  let (bullishSignals, bearishSignals) := counts in
  let bullishSignals := if String.eqb s "BUY" then S bullishSignals else bullishSignals in
  let bearishSignals := if String.eqb s "SELL" then S bearishSignals else bearishSignals in
  (bullishSignals, bearishSignals).

Definition countVotes (s : Signals) : nat * nat :=
  vote (bollinger_signal s)
    (vote (moving_average_signal s)
       (vote (macd_signal s) (vote (rsi_signal s) (0%nat, 0%nat)))).

Definition ofNat (n : nat) : num := Fin (inject_Z (Z.of_nat n)).

(** Technical score and its reasoning (lines 389-418). *)
Definition technicalSignal (tradingSignals : option TradingSignals)
  : num * list string :=
  match tradingSignals with
  | Some {| signals := Some s |} =>
      let (bullishSignals, bearishSignals) := countVotes s in
      let totalSignals := (bullishSignals + bearishSignals)%nat in
      if (0 <? totalSignals)%nat then
        let bullishRatio := ofNat bullishSignals / ofNat totalSignals in
        (bullishRatio * 100%Q,
         [toString (ofNat bullishSignals) ++ "/" ++ toString (ofNat totalSignals)
          ++ " technical indicators bullish"]%string)
      else (Fin 50, ["Technical indicators neutral"%string])
  | _ => (Fin 50, ["No technical analysis data available"%string])
  end.

(** Forecast score and its reasoning (lines 420-450). *)
Definition forecastSignal (forecastData : option ForecastData)
    (cryptoData : option CryptoData) : num * list string :=
  match forecastData, cryptoData with
  | Some {| predictions := Some predictions |}, Some c =>
      let currentPrice := Fin (current_price c) in
      match find (fun p => Qle_bool (minutes_ahead p) 1440) predictions with
      | Some shortTermPrediction =>
          let predictedPrice := Fin (predicted_price shortTermPrediction) in
          let changePercent := (predictedPrice - currentPrice) / currentPrice * 100%Q in
          if changePercent >? 5%Q then
            (75%Q + min changePercent 25%Q,
             ["Forecast predicts +" ++ toFixed1 changePercent ++ "% price increase"]%string)
          else if changePercent <? (-5)%Q then
            (25%Q + max changePercent (-25)%Q,
             ["Forecast predicts " ++ toFixed1 changePercent ++ "% price decrease"]%string)
          else
            (50%Q + changePercent * 5%Q,
             ["Forecast predicts " ++ (if changePercent >? 0%Q then "+" else "")
              ++ toFixed1 changePercent ++ "% price change"]%string)
      | None => (Fin 50, ["No short-term forecast available"%string])
      end
  | _, _ => (Fin 50, ["No forecast data available"%string])
  end.

Definition overallScore (newsScore technicalScore forecastScore : num) : num :=
  newsScore * 0.3%Q + technicalScore * 0.4%Q + forecastScore * 0.3%Q.

(** Action and unrounded confidence for an overall score (lines 457-466). *)
Definition decide (overallScore : num) : Action * num :=
  if overallScore >=? 70%Q then (BUY, min overallScore 95%Q)
  else if overallScore <=? 30%Q then (SELL, min (100%Q - overallScore) 95%Q)
  else (NEUTRAL, abs (50%Q - overallScore) * 2%Q).

(** [calculateRecommendation] on the news body it fetched and the state
    of its closure: the value handed to [setRecommendation]
    (lines 361-477). *)
Definition calculateRecommendation (newsAnalysisData : option NewsData)
    (tradingSignals : option TradingSignals)
    (forecastData : option ForecastData) (cryptoData : option CryptoData)
  : Recommendation :=
  let (newsScore, newsReasoning) := newsSignal newsAnalysisData in
  let (technicalScore, technicalReasoning) := technicalSignal tradingSignals in
  let (forecastScore, forecastReasoning) := forecastSignal forecastData cryptoData in
  let (action, confidence) :=
    decide (overallScore newsScore technicalScore forecastScore) in
  {| action := action;
     confidence := round confidence;
     breakdown := {| news := round newsScore;
                     technical := round technicalScore;
                     forecast := round forecastScore |};
     reasoning := newsReasoning ++ technicalReasoning ++ forecastReasoning |}.

(** The bounds of the data model on a recommendation: each sub-score of
    the breakdown in [0,100] and the confidence in [0,95]. *)
Definition bounded (r : Recommendation) : bool :=
  between 0 100 (news (breakdown r))
  && between 0 100 (technical (breakdown r))
  && between 0 100 (forecast (breakdown r))
  && between 0 95 (confidence r).

(** The positive and the negative count are parts of the total. *)
Definition countsWithinTotal (newsAnalysisData : option NewsData) : Prop :=
  forall d, newsAnalysisData = Some d ->
    (0 <= positive_count (summary d) <= total d)%Q /\
    (0 <= negative_count (summary d) <= total d)%Q.

(** The prediction that the forecast score is computed from. *)
Definition shortTermPrediction (forecastData : option ForecastData)
  : option Prediction :=
  match forecastData with
  | Some {| predictions := Some predictions |} =>
      find (fun p => Qle_bool (minutes_ahead p) 1440) predictions
  | _ => None
  end.

(** The current price and the predicted price are not both zero. *)
Definition pricesNotBothZero (forecastData : option ForecastData)
    (cryptoData : option CryptoData) : Prop :=
  forall p c, shortTermPrediction forecastData = Some p -> cryptoData = Some c ->
    ~ ((current_price c == 0)%Q /\ (predicted_price p == 0)%Q).

End Engine.


(* ================================================================= *)
(** ** The fan-out over the coin universe *)

Module Minio.

(** One stored observation of [/api/crypto?coinId=...]. *)
Record Row : Type := mkRow {
  id : string;
  symbol : string;
  name : string;
  price_usd : Q;
  market_cap : Q;
  volume_24h : Q;
  last_updated : string;
  timestamp : Z
}.

End Minio.

Module Fanout.

Import Minio.

(** One entry of [treemapData]. *)
Record Coin : Type := mkCoin {
  id : string;
  symbol : string;
  name : string;
  market_cap : Q;
  current_price : Q;
  price_change_percentage_24h : num;
  last_updated : string
}.

(** What one [fetch] and its [response.json()] give: an exception, or
    the body with its [success] flag and [data] array. *)
Inductive Response : Type :=
| Threw
| Body (success : bool) (data : option (list Row)).

Definition coinIds : list string :=
  ["bitcoin"; "ethereum"; "tether"; "bnb"; "solana"; "usdc"; "xrp"; "steth";
   "cardano"; "dogecoin"; "avalanche-2"; "tron"; "shiba-inu"; "chainlink";
   "wrapped-bitcoin"; "polkadot"; "bitcoin-cash"; "uniswap"; "near";
   "litecoin"; "polygon"; "internet-computer"; "dai"; "kaspa";
   "ethereum-classic"; "monero"; "stellar"; "okb"; "filecoin"; "cosmos";
   "cronos"; "hedera-hashgraph"; "mantle"; "arbitrum"; "vechain";
   "render-token"; "immutable-x"; "optimism"; "first-digital-usd"; "maker";
   "injective-protocol"; "celestia"; "sei-network"; "bittensor"; "thorchain";
   "the-graph"; "fantom"; "rocket-pool-eth"; "lido-dao"; "aave"].

Local Open Scope js_scope.

Definition priceChange (latestData previousData : Row) : num :=
  (Fin (price_usd latestData) - Fin (price_usd previousData))
  / Fin (price_usd previousData) * 100%Q.

(** The body of the per-coin callback (lines 267-293). *)
Definition treemapEntry (r : Response) : option Coin :=
  match r with
  | Body true (Some data) =>
      if (2 <=? List.length data)%nat then
        match nth_error data (List.length data - 1),
              nth_error data (List.length data - 2) with
        | Some latestData, Some previousData =>
            Some {| id := Minio.id latestData;
                    symbol := Minio.symbol latestData;
                    name := Minio.name latestData;
                    market_cap := Minio.market_cap latestData;
                    current_price := price_usd latestData;
                    price_change_percentage_24h := priceChange latestData previousData;
                    last_updated := Minio.last_updated latestData |}
        | _, _ => None
        end
      else None
  | _ => None
  end.

(** [results.filter(coin => coin !== null)]. *)
Fixpoint validCoins (results : list (option Coin)) : list Coin :=
  match results with
  | [] => []
  | Some c :: rest => c :: validCoins rest
  | None :: rest => validCoins rest
  end.

(** The comparator [(a, b) => b.market_cap - a.market_cap]. *)
Definition byMarketCap (a b : Coin) : Q :=
  (market_cap b - market_cap a)%Q.

(** [Array.prototype.sort] with a comparator: a stable sort that puts
    [a] before [b] whenever the comparator is negative on [(a, b)]. *)
Section Sort.

Variable A : Type.
Variable compareFn : A -> A -> Q.

Fixpoint insert (x : A) (l : list A) : list A :=
  match l with
  | [] => [x]
  | y :: l' =>
      if Qle_bool (compareFn x y) 0 then x :: l else y :: insert x l'
  end.

Fixpoint sort (l : list A) : list A :=
  match l with
  | [] => []
  | x :: l' => insert x (sort l')
  end.

End Sort.

(** [slice(0, n)]. *)
Definition slice0 (A : Type) (n : nat) (l : list A) : list A := firstn n l.

(** The tail of [fetchTreemapData] after [Promise.all] (lines 295-302):
    the new value of [treemapData]. *)
Definition publish (results : list (option Coin)) (treemapData : list Coin)
  : list Coin :=
  let validCoins := validCoins results in
  if (0 <? List.length validCoins)%nat then
    slice0 50 (sort byMarketCap validCoins)
  else treemapData.

(** Whether a response passes the test of the callback:
    [result.success && result.data && result.data.length >= 2]. *)
Definition survives (r : Response) : bool :=
  match r with
  | Body true (Some data) => (2 <=? List.length data)%nat
  | _ => false
  end.


(** One pass over the responses of the universe, one per symbol. *)
Definition refreshUniverse (responses : list Response) (treemapData : list Coin)
  : list Coin :=
  publish (map treemapEntry responses) treemapData.

End Fanout.

(* ================================================================= *)
(** ** The state store *)

Module Store.

Inductive Level : Type := LOG | WARN | ERROR.

(** The [useState] cells that the refresh logic reads or writes, and the
    console.  A console line keeps the text of the message (without its
    pictograph and without the error object). *)
Record Store : Type := mkStore {
  cryptoData : option Engine.CryptoData;
  selectedCoin : string;
  loading : bool;
  lastUpdate : string;
  treemapData : list Fanout.Coin;
  globalDataLoading : bool;
  realTimeChartData : list Minio.Row;
  forecastData : option Engine.ForecastData;
  candleData : option CandleData;
  tradingSignals : option Engine.TradingSignals;
  priceCountdown : Z;
  forecastCountdown : Z;
  lastCandleFetchDate : string;
  console : list (Level * string)
}.

Definition initial : Store :=
  {| cryptoData := None; selectedCoin := "bitcoin"; loading := false;
     lastUpdate := ""; treemapData := []; globalDataLoading := false;
     realTimeChartData := []; forecastData := None; candleData := None;
     tradingSignals := None; priceCountdown := 60; forecastCountdown := 300;
     lastCandleFetchDate := ""; console := [] |}.

Definition setCryptoData v (s : Store) : Store :=
  mkStore v (selectedCoin s) (loading s) (lastUpdate s) (treemapData s)
    (globalDataLoading s) (realTimeChartData s) (forecastData s) (candleData s)
    (tradingSignals s) (priceCountdown s) (forecastCountdown s)
    (lastCandleFetchDate s) (console s).

Definition setSelectedCoin v (s : Store) : Store :=
  mkStore (cryptoData s) v (loading s) (lastUpdate s) (treemapData s)
    (globalDataLoading s) (realTimeChartData s) (forecastData s) (candleData s)
    (tradingSignals s) (priceCountdown s) (forecastCountdown s)
    (lastCandleFetchDate s) (console s).

Definition setLoading v (s : Store) : Store :=
  mkStore (cryptoData s) (selectedCoin s) v (lastUpdate s) (treemapData s)
    (globalDataLoading s) (realTimeChartData s) (forecastData s) (candleData s)
    (tradingSignals s) (priceCountdown s) (forecastCountdown s)
    (lastCandleFetchDate s) (console s).

Definition setLastUpdate v (s : Store) : Store :=
  mkStore (cryptoData s) (selectedCoin s) (loading s) v (treemapData s)
    (globalDataLoading s) (realTimeChartData s) (forecastData s) (candleData s)
    (tradingSignals s) (priceCountdown s) (forecastCountdown s)
    (lastCandleFetchDate s) (console s).

Definition setTreemapData v (s : Store) : Store :=
  mkStore (cryptoData s) (selectedCoin s) (loading s) (lastUpdate s) v
    (globalDataLoading s) (realTimeChartData s) (forecastData s) (candleData s)
    (tradingSignals s) (priceCountdown s) (forecastCountdown s)
    (lastCandleFetchDate s) (console s).

Definition setGlobalDataLoading v (s : Store) : Store :=
  mkStore (cryptoData s) (selectedCoin s) (loading s) (lastUpdate s)
    (treemapData s) v (realTimeChartData s) (forecastData s) (candleData s)
    (tradingSignals s) (priceCountdown s) (forecastCountdown s)
    (lastCandleFetchDate s) (console s).

Definition setRealTimeChartData v (s : Store) : Store :=
  mkStore (cryptoData s) (selectedCoin s) (loading s) (lastUpdate s)
    (treemapData s) (globalDataLoading s) v (forecastData s) (candleData s)
    (tradingSignals s) (priceCountdown s) (forecastCountdown s)
    (lastCandleFetchDate s) (console s).

Definition setForecastData v (s : Store) : Store :=
  mkStore (cryptoData s) (selectedCoin s) (loading s) (lastUpdate s)
    (treemapData s) (globalDataLoading s) (realTimeChartData s) v (candleData s)
    (tradingSignals s) (priceCountdown s) (forecastCountdown s)
    (lastCandleFetchDate s) (console s).

Definition setCandleData v (s : Store) : Store :=
  mkStore (cryptoData s) (selectedCoin s) (loading s) (lastUpdate s)
    (treemapData s) (globalDataLoading s) (realTimeChartData s) (forecastData s)
    v (tradingSignals s) (priceCountdown s) (forecastCountdown s)
    (lastCandleFetchDate s) (console s).

Definition setTradingSignals v (s : Store) : Store :=
  mkStore (cryptoData s) (selectedCoin s) (loading s) (lastUpdate s)
    (treemapData s) (globalDataLoading s) (realTimeChartData s) (forecastData s)
    (candleData s) v (priceCountdown s) (forecastCountdown s)
    (lastCandleFetchDate s) (console s).

Definition setPriceCountdown v (s : Store) : Store :=
  mkStore (cryptoData s) (selectedCoin s) (loading s) (lastUpdate s)
    (treemapData s) (globalDataLoading s) (realTimeChartData s) (forecastData s)
    (candleData s) (tradingSignals s) v (forecastCountdown s)
    (lastCandleFetchDate s) (console s).

Definition setForecastCountdown v (s : Store) : Store :=
  mkStore (cryptoData s) (selectedCoin s) (loading s) (lastUpdate s)
    (treemapData s) (globalDataLoading s) (realTimeChartData s) (forecastData s)
    (candleData s) (tradingSignals s) (priceCountdown s) v
    (lastCandleFetchDate s) (console s).

Definition setLastCandleFetchDate v (s : Store) : Store :=
  mkStore (cryptoData s) (selectedCoin s) (loading s) (lastUpdate s)
    (treemapData s) (globalDataLoading s) (realTimeChartData s) (forecastData s)
    (candleData s) (tradingSignals s) (priceCountdown s) (forecastCountdown s)
    v (console s).

(** [console.log], [console.warn], [console.error]. *)
Definition print (l : Level) (msg : string) (s : Store) : Store :=
  mkStore (cryptoData s) (selectedCoin s) (loading s) (lastUpdate s)
    (treemapData s) (globalDataLoading s) (realTimeChartData s) (forecastData s)
    (candleData s) (tradingSignals s) (priceCountdown s) (forecastCountdown s)
    (lastCandleFetchDate s) (console s ++ [(l, msg)]).

(** The feeds of the store, without the console and the busy flags. *)
Definition feeds (s : Store) :=
  (cryptoData s, treemapData s, realTimeChartData s,
   forecastData s, candleData s, tradingSignals s, lastCandleFetchDate s).

End Store.

(* ================================================================= *)
(** ** Asynchronous functions *)

Module Async.

Import Store.
Local Open Scope list_scope.

(** The requests of the page: the three routes it fetches, and the call
    of [fetchCoinData] of [lib/api]. *)
Inductive Request : Type :=
| ApiCrypto (coinId : string)
| ApiCandleChart (coinId : string) (action : string)
| ApiForecast (coinId : string) (source : string)
| LibFetchCoinData (coinId : string).

(** What [response.json()] gives.  [Malformed]: the call throws.  A body
    of another shape than the one a caller reads has none of the fields
    read, which are then [undefined]. *)
Inductive Json : Type :=
| Malformed
| CryptoJson (success : bool) (data : option (list Minio.Row))
| UpdateJson (success : bool)
| CandleJson (success : bool) (data : option CandleData)
| SignalsJson (success : bool) (signals : option Engine.TradingSignals)
| ForecastJson (success : bool) (data : option Engine.ForecastData).

(** The settlement of an awaited request: [fetch] rejects, or resolves
    to a response with its [ok] flag and body; [fetchCoinData] resolves to
    coin data or to nothing. *)
Inductive Reply : Type :=
| Rejected
| Http (ok : bool) (body : Json)
| CoinData (coinData : option Engine.CryptoData).

(** An [async] function from its call to its completion.  [Fetch] is an
    [await] that has not been reached, [Wait] one whose request is out;
    [fetch] and the [response.json()] after it are one suspension. *)
#[warnings="-register-all"]
Inductive Proc (A : Type) : Type :=
| Ret (a : A)
| Act (f : Store -> Store) (k : Proc A)
| Now (k : Date -> Proc A)
| Fetch (r : Request) (k : Reply -> Proc A)
| Wait (r : Request) (k : Reply -> Proc A)
| PromiseAll (B : Type) (ps : list (Proc B)) (k : list B -> Proc A).

Arguments Ret {A} a.
Arguments Act {A} f k.
Arguments Now {A} k.
Arguments Fetch {A} r k.
Arguments Wait {A} r k.
Arguments PromiseAll {A B} ps k.

(** [await p; k]. *)
Fixpoint bind (A B : Type) (p : Proc A) (k : A -> Proc B) {struct p} : Proc B :=
  match p with
  | Ret a => k a
  | Act f p' => Act f (bind p' k)
  | Now h => Now (fun d => bind (h d) k)
  | Fetch r h => Fetch r (fun x => bind (h x) k)
  | Wait r h => Wait r (fun x => bind (h x) k)
  | PromiseAll ps h => PromiseAll ps (fun vs => bind (h vs) k)
  end.

Definition result (A : Type) (p : Proc A) : option A :=
  match p with
  | Ret a => Some a
  | _ => None
  end.

Fixpoint results (A : Type) (ps : list (Proc A)) : option (list A) :=
  match ps with
  | [] => Some []
  | p :: ps' =>
      match result p, results ps' with
      | Some a, Some l => Some (a :: l)
      | _, _ => None
      end
  end.

(** Runs [p] up to its next suspensions at time [now]: the state updates
    made, and the requests sent, in order. *)
Fixpoint run (A : Type) (now : Date) (p : Proc A) (s : Store) {struct p}
  : Proc A * Store * list Request :=
  match p with
  | Ret a => (Ret a, s, [])
  | Act f k => run now k (f s)
  | Now k => run now (k now) s
  | Fetch r k => (Wait r k, s, [r])
  | Wait r k => (Wait r k, s, [])
  | PromiseAll ps k =>
      let '(ps', s', rs) :=
        (fix runAll (l : list (Proc _)) (s : Store) :=
           match l with
           | [] => ([], s, [])
           | q :: l' =>
               let '(q', s1, r1) := run now q s in
               let '(l'', s2, r2) := runAll l' s1 in
               (q' :: l'', s2, r1 ++ r2)
           end) ps s in
      match results ps' with
      | Some vs =>
          let '(p', s'', rs') := run now (k vs) s' in (p', s'', rs ++ rs')
      | None => (PromiseAll ps' k, s', rs)
      end
  end.

(** Settles the request awaited at [path] (the positions to follow
    through the nested [Promise.all]s) with [reply], and runs on. *)
Fixpoint deliver (A : Type) (now : Date) (path : list nat) (reply : Reply)
    (p : Proc A) (s : Store) {struct p}
  : option (Proc A * Store * list Request) :=
  match p, path with
  | Wait r k, [] => Some (run now (k reply) s)
  | PromiseAll ps k, i :: path' =>
      match
        (fix deliverNth (l : list (Proc _)) (i : nat) :=
           match l, i with
           | [], _ => None
           | q :: l', O =>
               match deliver now path' reply q s with
               | Some (q', s', rs) => Some (q' :: l', s', rs)
               | None => None
               end
           | q :: l', S j =>
               match deliverNth l' j with
               | Some (l'', s', rs) => Some (q :: l'', s', rs)
               | None => None
               end
           end) ps i
      with
      | Some (ps', s', rs) =>
          match results ps' with
          | Some vs =>
              let '(p', s'', rs') := run now (k vs) s' in
              Some (p', s'', rs ++ rs')
          | None => Some (PromiseAll ps' k, s', rs)
          end
      | None => None
      end
  | _, _ => None
  end.

(** The requests that [p] is waiting for. *)
Fixpoint awaited (A : Type) (p : Proc A) {struct p} : list Request :=
  match p with
  | Wait r _ => [r]
  | PromiseAll ps _ =>
      (fix each (l : list (Proc _)) :=
         match l with
         | [] => []
         | q :: l' => awaited q ++ each l'
         end) ps
  | _ => []
  end.

Definition completed (A : Type) (p : Proc A) : bool :=
  match p with
  | Ret _ => true
  | _ => false
  end.

(** Calls [p] at time [now] and settles its first request at time
    [later] with [reply]. *)
Definition runThenSettle (A : Type) (now later : Date) (reply : Reply)
    (p : Proc A) (s : Store) : option (Proc A * Store * list Request) :=
  let '(p1, s1, _) := run now p s in deliver later [] reply p1 s1.

End Async.

(* ================================================================= *)
(** ** The fetchers and the scheduled tasks of the page *)

Module Dashboard.

Import Store Async.
Local Open Scope list_scope.

(** The closure [env] of a function is the render that created it: it reads
    [selectedCoin], [candleData] and [lastCandleFetchDate] there, while a
    setter writes the live store. *)

(** The fields [success] and [data] of a body of [/api/crypto]. *)
Definition cryptoFields (j : Json) : bool * option (list Minio.Row) :=
  match j with
  | CryptoJson success data => (success, data)
  | _ => (false, None)
  end.

(** The usable forecast of a body of [/api/forecast]:
    [result.success && result.data && !result.data.error]. *)
Definition usableForecast (j : Json) : option Engine.ForecastData :=
  match j with
  | ForecastJson true (Some data) =>
      if Engine.error data then None else Some data
  | _ => None
  end.

Definition ofRow (latestData : Minio.Row) : Engine.CryptoData :=
  {| Engine.id := Minio.id latestData;
     Engine.symbol := Minio.symbol latestData;
     Engine.name := Minio.name latestData;
     Engine.current_price := Minio.price_usd latestData;
     Engine.market_cap := Minio.market_cap latestData;
     Engine.total_volume := Minio.volume_24h latestData |}.

Definition stamp (k : string -> Proc unit) : Proc unit :=
  Now (fun d => k (toLocaleTimeString d)).

(** Lines 69-84. *)
Definition fetchCurrentCoinData (env : Store) : Proc unit :=
  if String.eqb (selectedCoin env) "" then Ret tt
  else
    Act (setLoading true)
      (Fetch (LibFetchCoinData (selectedCoin env)) (fun reply =>
         match reply with
         | CoinData (Some coinData) =>
             Act (setCryptoData (Some coinData))
               (stamp (fun t => Act (setLastUpdate t) (Act (setLoading false) (Ret tt))))
         | CoinData None => Act (setLoading false) (Ret tt)
         | _ =>
             Act (print ERROR "Error fetching coin data:")
               (Act (setLoading false) (Ret tt))
         end)).

(** Lines 87-122. *)
Definition fetchMinIOData (env : Store) : Proc unit :=
  let caught :=
    Act (print ERROR "Error fetching MinIO data:") (fetchCurrentCoinData env) in
  if String.eqb (selectedCoin env) "" then Ret tt
  else
    Fetch (ApiCrypto (selectedCoin env)) (fun reply =>
      match reply with
      | Http true Malformed => caught
      | Http true result =>
          match cryptoFields result with
          | (true, None) => caught
          | (true, Some data) =>
              match nth_error data (List.length data - 1) with
              | Some latestData =>
                  Act (setCryptoData (Some (ofRow latestData)))
                    (stamp (fun t => Act (setLastUpdate t) (Ret tt)))
              | None => fetchCurrentCoinData env
              end
          | (false, _) => fetchCurrentCoinData env
          end
      | Http false _ => Ret tt
      | _ => caught
      end).

Definition byTimestamp (a b : Minio.Row) : Q :=
  inject_Z (Minio.timestamp a - Minio.timestamp b).

(** Lines 125-144. *)
Definition fetchRealTimeChartData (env : Store) : Proc unit :=
  let caught :=
    Act (print ERROR "Error fetching real-time chart data:") (Ret tt) in
  Fetch (ApiCrypto (selectedCoin env)) (fun reply =>
    match reply with
    | Http true Malformed => caught
    | Http true result =>
        match cryptoFields result with
        | (true, None) => caught
        | (true, Some data) =>
            if (0 <? List.length data)%nat then
              let coinData := Fanout.sort byTimestamp data in
              if (0 <? List.length coinData)%nat then
                Act (setRealTimeChartData coinData)
                  (Act (print LOG
                     ("Updated real-time chart data for " ++ selectedCoin env
                      ++ ": " ++ showZ (Z.of_nat (List.length coinData))
                      ++ " points")%string)
                     (Ret tt))
              else Ret tt
            else Ret tt
        | (false, _) => Ret tt
        end
    | Http false _ => Ret tt
    | _ => caught
    end).

(** What the per-coin callback of [fetchTreemapData] sees of a reply. *)
Definition responseOf (reply : Reply) : Fanout.Response :=
  match reply with
  | Http _ Malformed => Fanout.Threw
  | Http _ result =>
      let (success, data) := cryptoFields result in Fanout.Body success data
  | _ => Fanout.Threw
  end.

(** Lines 267-293. *)
Definition treemapCoin (coinId : string) : Proc (option Fanout.Coin) :=
  Fetch (ApiCrypto coinId) (fun reply =>
    match responseOf reply with
    | Fanout.Threw =>
        Act (print WARN ("Failed to fetch data for " ++ coinId ++ ":")%string)
          (Ret None)
    | response => Ret (Fanout.treemapEntry response)
    end).

(** Lines 295-302: what follows [await Promise.all(promises)]. *)
Definition publishTreemap (results : list (option Fanout.Coin)) : Proc unit :=
  let validCoins := Fanout.validCoins results in
  if (0 <? List.length validCoins)%nat then
    let sortedCoins :=
      Fanout.slice0 50 (Fanout.sort Fanout.byMarketCap validCoins) in
    Act (setTreemapData sortedCoins)
      (Act (print LOG
         ("Updated treemap data for "
          ++ showZ (Z.of_nat (List.length sortedCoins)) ++ " coins")%string)
         (Ret tt))
  else Ret tt.

(** Lines 255-306. *)
Definition fetchTreemapData : Proc unit :=
  PromiseAll (map treemapCoin Fanout.coinIds) publishTreemap.

(** Lines 309-329. *)
Definition refreshAllData (env : Store) : Proc unit :=
  Act (setGlobalDataLoading true)
    (PromiseAll
       [fetchMinIOData env; fetchRealTimeChartData env; fetchTreemapData]
       (fun _ =>
          Act (setPriceCountdown 60)
            (stamp (fun t =>
               Act (setLastUpdate t)
                 (stamp (fun t' =>
                    Act (print LOG ("Regular data refreshed at: " ++ t')%string)
                      (Act (setGlobalDataLoading false) (Ret tt)))))))).

(** Lines 216-252. *)
Definition fetchForecastData (env : Store) : Proc unit :=
  let coin := selectedCoin env in
  let caught :=
    Act (print ERROR "Error fetching forecast data:")
      (Act (setForecastData None) (Ret tt)) in
  let generate :=
    Act (print LOG "Generating new forecast...")
      (Fetch (ApiForecast coin "generate") (fun reply =>
         match reply with
         | Http true Malformed => caught
         | Http true generateResult =>
             match usableForecast generateResult with
             | Some data =>
                 Act (print LOG ("Generated new forecast for " ++ coin)%string)
                   (Act (setForecastData (Some data)) (Ret tt))
             | None =>
                 Act (print ERROR "Forecast generation failed:")
                   (Act (setForecastData None) (Ret tt))
             end
         | Http false _ => Ret tt
         | _ => caught
         end)) in
  Act (print LOG ("Fetching forecast for " ++ coin ++ "...")%string)
    (Fetch (ApiForecast coin "minio") (fun reply =>
       match reply with
       | Http true Malformed => caught
       | Http true result =>
           match usableForecast result with
           | Some data =>
               Act (print LOG ("Updated forecast from MinIO for " ++ coin)%string)
                 (Act (setForecastData (Some data)) (Ret tt))
           | None => generate
           end
       | Http false _ => generate
       | _ => caught
       end)).

(** Lines 332-340. *)
Definition refreshForecastData (env : Store) : Proc unit :=
  bind (fetchForecastData env) (fun _ =>
    Act (setForecastCountdown 300)
      (stamp (fun t =>
         Act (print LOG ("Forecast data refreshed at: " ++ t)%string) (Ret tt)))).

(** Lines 153-194. *)
Definition fetchCandleData (env : Store) : Proc unit :=
  let coin := selectedCoin env in
  let caught :=
    Act (print ERROR "Error fetching candle data:")
      (Act (setCandleData None) (Ret tt)) in
  let signals :=
    Fetch (ApiCandleChart coin "signals") (fun reply =>
      match reply with
      | Http _ Malformed => caught
      | Http _ (SignalsJson true (Some signals)) =>
          Act (setTradingSignals (Some signals)) (Ret tt)
      | Http _ _ => Ret tt
      | _ => caught
      end) in
  let indicators :=
    Fetch (ApiCandleChart coin "indicators") (fun reply =>
      match reply with
      | Http _ Malformed => caught
      | Http _ (CandleJson true (Some data)) =>
          Act (setCandleData (Some data))
            (Now (fun d =>
               Act (setLastCandleFetchDate (toDateString d))
                 (Act (print LOG
                    ("Updated candle data for " ++ coin ++ ": "
                     ++ showZ (data_points data) ++ " points")%string)
                    signals)))
      | Http _ _ =>
          Act (print ERROR "Failed to fetch candle data:")
            (Act (setCandleData None) (Ret tt))
      | _ => caught
      end) in
  Act (print LOG ("Fetching candle data for " ++ coin ++ "...")%string)
    (Now (fun now =>
       if shouldUpdate (candleData env) now then
         Act (print LOG "Updating candle data (daily refresh)...")
           (Fetch (ApiCandleChart coin "update") (fun reply =>
              match reply with
              | Http _ Malformed => caught
              | Http _ (UpdateJson true) => indicators
              | Http _ _ =>
                  Act (print WARN
                         "Candle update failed, proceeding with existing data:")
                    indicators
              | _ => caught
              end))
       else indicators)).

(** The invocation of [fetchCandleData] made at [t0] once its request for
    the indicators is out: at once when no update is due, else after the
    update was acknowledged at [t1]. *)
Definition awaitingIndicators (t0 t1 : Date) (env s0 : Store) : Proc unit :=
  let '(p, s1, _) := run t0 (fetchCandleData env) s0 in
  if shouldUpdate (candleData env) t0 then
    match deliver t1 [] (Http true (UpdateJson true)) p s1 with
    | Some (p', _, _) => p'
    | None => p
    end
  else p.

(** Lines 197-204. *)
Definition checkAndUpdateCandleData (env : Store) : Proc unit :=
  Now (fun now =>
    if shouldUpdateCandleData (lastCandleFetchDate env) (candleData env) now
    then Act (print LOG "Daily candle data refresh needed") (fetchCandleData env)
    else Act (print LOG "Candle data is up to date for today") (Ret tt)).

End Dashboard.

(* ================================================================= *)
(** ** The timers and the event loop *)

Module Scheduler.

Import Store Async Dashboard.
Local Open Scope list_scope.

(** The callbacks of the three [setInterval]s (lines 491-493). *)
Inductive Task : Type :=
| RefreshAllData
| RefreshForecastData
| CheckAndUpdateCandleData.

Definition intervalMs (t : Task) : Z :=
  match t with
  | RefreshAllData => 60000
  | RefreshForecastData => 300000
  | CheckAndUpdateCandleData => 3600000
  end.

Definition body (t : Task) (env : Store) : Proc unit :=
  match t with
  | RefreshAllData => refreshAllData env
  | RefreshForecastData => refreshForecastData env
  | CheckAndUpdateCandleData => checkAndUpdateCandleData env
  end.

(** The page at rest between two events: the live store, the render
    [closure] whose functions the running intervals hold, and every
    invocation made so far with what is left of it. *)
Record World : Type := mkWorld {
  store : Store;
  closure : Store;
  pool : list (Task * Proc unit)
}.

Inductive Event : Type :=
| Tick (t : Task)
| Settle (invocation : nat) (path : list nat) (reply : Reply)
| SelectCoin (coin : string).

(** Calls the function of task [t] created by the render [env]. *)
Definition invoke (now : Date) (t : Task) (env : Store) (w : World)
  : World * list Request :=
  let '(p, s, sent) := run now (body t env) (store w) in
  ({| store := s; closure := closure w; pool := pool w ++ [(t, p)] |}, sent).

Fixpoint update (A : Type) (n : nat) (x : A) (l : list A) : list A :=
  match l, n with
  | [], _ => []
  | _ :: l', O => x :: l'
  | y :: l', S m => y :: update m x l'
  end.

(** The two effects that depend on [selectedCoin], run after the render
    [store w]: the reset of the candle state (lines 207-213), then the
    immediate refreshes and the new intervals (lines 486-500), which
    replace the cleared ones. *)
Definition effects (now : Date) (w : World) : World * list Request :=
  let env := store w in
  let reset :=
    if String.eqb (selectedCoin env) "" then env
    else setTradingSignals None (setCandleData None (setLastCandleFetchDate "" env)) in
  let w0 := {| store := reset; closure := env; pool := pool w |} in
  let '(w1, sent1) := invoke now RefreshAllData env w0 in
  let '(w2, sent2) := invoke now RefreshForecastData env w1 in
  let '(w3, sent3) := invoke now CheckAndUpdateCandleData env w2 in
  (w3, sent1 ++ sent2 ++ sent3).

(** The first render. *)
Definition mount (now : Date) : World * list Request :=
  effects now {| store := initial; closure := initial; pool := [] |}.

(** One turn of the event loop at time [now]: the next world and the
    requests sent during the turn. *)
Definition step (now : Date) (e : Event) (w : World) : World * list Request :=
  match e with
  | Tick t => invoke now t (closure w) w
  | Settle i path reply =>
      match nth_error (pool w) i with
      | Some (t, p) =>
          match deliver now path reply p (store w) with
          | Some (p', s, sent) =>
              ({| store := s; closure := closure w;
                  pool := update i (t, p') (pool w) |}, sent)
          | None => (w, [])
          end
      | None => (w, [])
      end
  | SelectCoin coin =>
      if String.eqb coin (selectedCoin (store w)) then (w, [])
      else
        effects now {| store := setSelectedCoin coin (store w);
                       closure := closure w; pool := pool w |}
  end.

(** A run of events, oldest first, each with its time. *)
Fixpoint steps (es : list (Date * Event)) (w : World) : World * list Request :=
  match es with
  | [] => (w, [])
  | (now, e) :: es' =>
      let '(w1, sent1) := step now e w in
      let '(w2, sent2) := steps es' w1 in
      (w2, sent1 ++ sent2)
  end.

(** The invocations of task [t] that have not completed. *)
Definition inFlight (t : Task) (w : World) : list (Proc unit) :=
  map snd
    (filter (fun tp =>
       match fst tp, t with
       | RefreshAllData, RefreshAllData
       | RefreshForecastData, RefreshForecastData
       | CheckAndUpdateCandleData, CheckAndUpdateCandleData =>
           negb (completed (snd tp))
       | _, _ => false
       end) (pool w)).

End Scheduler.

(* ================================================================= *)
(** ** Sample inputs *)

Module Examples.

Import Engine.

(** Ten articles: eight positive, one negative, one neutral. *)
Definition news_8_1_10 : NewsData :=
  {| total := 10;
     summary := {| positive_count := 8; negative_count := 1; neutral_count := 1 |} |}.

(** A body whose positive count exceeds its total. *)
Definition news_20_of_10 : NewsData :=
  {| total := 10;
     summary := {| positive_count := 20; negative_count := 0; neutral_count := 0 |} |}.

Definition allBullish : TradingSignals :=
  {| signals := Some {| rsi_signal := "BUY"; macd_signal := "BUY";
                        moving_average_signal := "BUY";
                        bollinger_signal := "BUY" |} |}.

Definition forecastOf (price : Q) : ForecastData :=
  {| error := false;
     predictions := Some [{| minutes_ahead := 60; predicted_price := price |}] |}.

Definition coinAt (price : Q) : CryptoData :=
  {| id := "bitcoin"; symbol := "btc"; name := "Bitcoin";
     current_price := price; market_cap := 1000000; total_volume := 1000 |}.

(** Friday 2 October 2026, Sunday 1 November 2026 at 23:59 and
    Monday 2 November 2026 at 00:00, 09:30 and 23:59. *)
Definition oct2 : Date := mkDate 2026 9 2 5 9 30 0.
Definition nov1_2359 : Date := mkDate 2026 10 1 0 23 59 0.
Definition nov2_0000 : Date := mkDate 2026 10 2 1 0 0 0.
Definition nov2 : Date := mkDate 2026 10 2 1 9 30 0.
Definition nov2_2359 : Date := mkDate 2026 10 2 1 23 59 0.

(** Instants of the morning of 2 November 2026 after 09:30:00. *)
Definition nov2_093005 : Date := mkDate 2026 10 2 1 9 30 5.
Definition nov2_093010 : Date := mkDate 2026 10 2 1 9 30 10.
Definition nov2_093020 : Date := mkDate 2026 10 2 1 9 30 20.
Definition nov2_0931 : Date := mkDate 2026 10 2 1 9 31 0.
Definition nov2_0935 : Date := mkDate 2026 10 2 1 9 35 0.

Definition candlesOf (fetched : Date) : CandleData :=
  {| fetched_at := fetched; data_points := 365 |}.

Definition row (coin : string) (price cap : Q) (t : Z) : Minio.Row :=
  {| Minio.id := coin; Minio.symbol := coin; Minio.name := coin;
     Minio.price_usd := price; Minio.market_cap := cap;
     Minio.volume_24h := 0; Minio.last_updated := ""; Minio.timestamp := t |}.

(** Five symbols: two points, an exception, one point, three points, and
    a body that reports no success. *)
Definition sampleResponses : list Fanout.Response :=
  [Fanout.Body true (Some [row "bitcoin" 100 2000 1; row "bitcoin" 110 2200 2]);
   Fanout.Threw;
   Fanout.Body true (Some [row "tether" 1 900 1]);
   Fanout.Body true
     (Some [row "ethereum" 50 5000 1; row "ethereum" 40 4000 2;
            row "ethereum" 44 4400 3]);
   Fanout.Body false None].

Definition sampleUniverse : list Fanout.Coin :=
  [{| Fanout.id := "solana"; Fanout.symbol := "sol"; Fanout.name := "Solana";
      Fanout.market_cap := 700; Fanout.current_price := 7;
      Fanout.price_change_percentage_24h := Fin 1;
      Fanout.last_updated := "" |}].

(** A pass over the universe in which the request of symbol 3 is
    rejected, symbol 17 has a single point and symbol 42 reports no
    success; the replies arrive in the reverse order of the requests. *)
Definition universeReply (k : nat) (coinId : string) : Async.Reply :=
  if (k =? 3)%nat then Async.Rejected
  else if (k =? 17)%nat then
    Async.Http true (Async.CryptoJson true (Some [row coinId 1 1 1]))
  else if (k =? 42)%nat then Async.Http false (Async.CryptoJson false None)
  else
    Async.Http true
      (Async.CryptoJson true
         (Some [row coinId 10 (inject_Z (Z.of_nat (100 + k))) 1;
                row coinId 11 (inject_Z (Z.of_nat (200 + (7 * k) mod 50))) 2])).

Definition universeReplies : list Async.Reply :=
  map (fun kc => universeReply (fst kc) (snd kc))
    (combine (seq 0 50) Fanout.coinIds).

Definition universeEvents : list (Date * Scheduler.Event) :=
  rev (map (fun kr => (nov2_093005, Scheduler.Settle 0 [2; fst kr] (snd kr))%nat)
         (combine (seq 0 50) universeReplies)).

End Examples.

(* ================================================================= *)
(** ** Votes turned around *)

Module Votes.

Import Engine.



(** A vote that the count ignores. *)
Definition abstains (s : string) : Prop := s <> "BUY" /\ s <> "SELL".

(** No source has data to score: no news or an empty total, no signals
    or four abstentions, and no forecast, no prediction within the day or
    no coin data. *)
Definition noNews (newsAnalysisData : option NewsData) : Prop :=
  forall d, newsAnalysisData = Some d -> (total d <= 0)%Q.

Definition noVotes (tradingSignals : option TradingSignals) : Prop :=
  forall s, tradingSignals = Some {| signals := Some s |} ->
    abstains (rsi_signal s) /\ abstains (macd_signal s) /\
    abstains (moving_average_signal s) /\ abstains (bollinger_signal s).

Definition noForecast (forecastData : option ForecastData)
    (cryptoData : option CryptoData) : Prop :=
  shortTermPrediction forecastData = None \/ cryptoData = None.

(** The forecast score as a function of a finite change in percent. *)
Definition forecastScoreOf (changePercent : Q) : Q :=
  if Qlt_bool 5 changePercent then
    75 + (if Qle_bool changePercent 25 then changePercent else 25)
  else if Qlt_bool changePercent (-5) then
    25 + (if Qle_bool changePercent (-25) then -25 else changePercent)
  else 50 + changePercent * 5.

(** The change in percent from the current to the predicted price. *)
Definition changePercentOf (p : Prediction) (c : CryptoData) : Q :=
  (predicted_price p + - current_price c) / current_price c * 100.

End Votes.

(* ================================================================= *)
(** ** The countdowns *)

Module Countdown.

(** The updater of the one-second price countdown (lines 504-511). *)
Definition priceCountdownTick (prev : Z) : Z :=
  if prev <=? 1 then 60 else prev - 1.

(** The updater of the one-second forecast countdown (lines 513-520). *)
Definition forecastCountdownTick (prev : Z) : Z :=
  if prev <=? 1 then 300 else prev - 1.

End Countdown.

(* ================================================================= *)
(** ** The route /api/crypto *)

Module CryptoRoute.

(** What a read of [lib/minio-service] gives the handler: an exception,
    or the stored rows. *)
Inductive MinioRead : Type :=
| ReadThrows
| ReadRows (data : list Minio.Row).

Record RouteResponse : Type := mkRouteResponse {
  status : Z;
  success : bool;
  error : option string;
  data : list Minio.Row;
  count : Z;
  coinId : option string;
  source : option string;
  collectorRunning : bool;
  lastUpdate : option Date
}.

Definition failure : RouteResponse :=
  {| status := 500; success := false;
     error := Some "Failed to fetch data from MinIO";
     data := []; count := 0; coinId := None; source := None;
     collectorRunning := false; lastUpdate := None |}.

(** The handler [GET]: [initialised] tells whether [initializeMinio]
    returned, [coinIdParam] is [searchParams.get('coinId')], [readCoin] and
    [readAll] are the outcomes of [readCoinDataFromMinio] and
    [readCryptoDataFromMinio], [collecting] is
    [dataCollector.isCollecting()]. *)
Definition GET (now : Date) (initialised : bool) (coinIdParam : option string)
    (readCoin : string -> MinioRead) (readAll : MinioRead) (collecting : bool)
  : RouteResponse :=
  if initialised then
    match coinIdParam with
    | Some (String c rest) =>
        match readCoin (String c rest) with
        | ReadRows rows =>
            {| status := 200; success := true; error := None;
               data := rows; count := Z.of_nat (List.length rows);
               coinId := Some (String c rest); source := Some "minio";
               collectorRunning := collecting; lastUpdate := Some now |}
        | ReadThrows => failure
        end
    | _ =>
        match readAll with
        | ReadRows rows =>
            {| status := 200; success := true; error := None;
               data := rows; count := Z.of_nat (List.length rows);
               coinId := None; source := Some "minio";
               collectorRunning := collecting; lastUpdate := Some now |}
        | ReadThrows => failure
        end
    end
  else failure.

(** The response as the page's [fetch] sees it: [ok] for a status from
    200 to 299, and the body. *)
Definition asReply (r : RouteResponse) : Async.Reply :=
  Async.Http ((200 <=? status r) && (status r <=? 299))
    (Async.CryptoJson (success r) (Some (data r))).

End CryptoRoute.

(* ================================================================= *)
(** ** The coin selector *)

Module Dropdown.

Import Store Async Dashboard Scheduler.
Local Open Scope list_scope.

(** The click on a coin of the list (lines 645-650):
    [setSelectedCoin(coin.id)], then [fetchMinIOData()], the function of
    the render that drew the list, then the render of the new selection.
    The invocation of [fetchMinIOData] is returned beside the world. *)
Definition onCoinClick (now : Date) (coin : string) (w : World)
  : World * Proc unit * list Request :=
  let '(p, s, sent) := run now (fetchMinIOData (store w)) (store w) in
  let '(w', sent') :=
    step now (SelectCoin coin)
      {| store := s; closure := closure w; pool := pool w |} in
  (w', p, sent ++ sent').

End Dropdown.

(* ================================================================= *)
(** ** The statistics of the real-time price chart *)

Module RealTimePriceChart.

Local Open Scope list_scope.
Local Open Scope js_scope.

(** A number in a condition: false for 0 and for [NaN]. *)
Definition truthy (x : num) : bool :=
  match x with
  | Fin q => negb (Qeq_bool q 0)
  | NaN => false
  | _ => true
  end.

Definition isNaN (x : num) : bool :=
  match x with
  | NaN => true
  | _ => false
  end.

(** [Math.min(...xs)] and [Math.max(...xs)]; with no argument they are
    [Infinity] and [-Infinity]. *)
Definition mathMin (xs : list num) : num := fold_right Num.min PInf xs.
Definition mathMax (xs : list num) : num := fold_right Num.max NInf xs.

(** [x || 0] for an element of an array: 0 when there is none. *)
Definition orZero (x : option num) : num :=
  match x with
  | Some p => if truthy p then p else Fin 0
  | None => Fin 0
  end.

Record Statistics : Type := mkStatistics {
  prices : list num;
  minPrice : num;
  maxPrice : num;
  currentPrice : num;
  firstPrice : num;
  priceChange : num;
  padding : num;
  yAxisMin : num;
  yAxisMax : num
}.

(** Lines 78-91 of the component, on the rows it is given. *)
Definition statistics (realTimeData : list Minio.Row) : Statistics :=
  let prices :=
    filter (fun price => truthy price && negb (isNaN price))
      (map (fun item => Fin (Minio.price_usd item)) realTimeData) in
  let n := List.length prices in
  let minPrice := if (0 <? n)%nat then mathMin prices else Fin 0 in
  let maxPrice := if (0 <? n)%nat then mathMax prices else Fin 100 in
  let currentPrice := orZero (nth_error prices (n - 1)) in
  let firstPrice := orZero (nth_error prices 0) in
  let priceChange := currentPrice - firstPrice in
  let padding :=
    if (1 <? n)%nat then (maxPrice - minPrice) * Fin (5 # 100)
    else maxPrice * Fin (5 # 100) in
  let yAxisMin := if (0 <? n)%nat then minPrice - padding else Fin 0 in
  let yAxisMax := if (0 <? n)%nat then maxPrice + padding else Fin 100 in
  {| prices := prices; minPrice := minPrice; maxPrice := maxPrice;
     currentPrice := currentPrice; firstPrice := firstPrice;
     priceChange := priceChange; padding := padding;
     yAxisMin := yAxisMin; yAxisMax := yAxisMax |}.

(** The prices that pass the filter, as rationals. *)
Definition plotted (realTimeData : list Minio.Row) : list Q :=
  filter (fun q => negb (Qeq_bool q 0)) (map Minio.price_usd realTimeData).

End RealTimePriceChart.

(* ================================================================= *)
(** ** The points of the forecast chart *)

Module PriceForecastChart.

Local Open Scope list_scope.

Record Forecast : Type := mkForecast {
  minute : Z;
  forecast_price : option num;
  timestamp : string
}.

(** The forecast data as the component receives it: a field that is
    absent or null is [None]. *)
Record ForecastData : Type := mkForecastData {
  current_price : option num;
  historical_prices : option (list (option num));
  historical_timestamps : option (list string);
  recent_prices : option (list (option num));
  recent_timestamps : option (list string);
  forecasts : option (list (option Forecast))
}.

Inductive Kind : Type := historical | current | forecast.

(** The [timestamp] of a point: null, a parsed string, or the clock. *)
Inductive Instant : Type :=
| Null
| Parsed (s : string)
| Clock (d : Date).

Record Point : Type := mkPoint {
  time : string;
  original : option num;
  forecastValue : option num;
  type : Kind;
  pointTimestamp : Instant
}.

(** [l.slice(-n)]: the last [n] elements. *)
Definition sliceLast (A : Type) (n : nat) (l : list A) : list A :=
  skipn (List.length l - n) l.

(** [a && a.length > 0 ? a : b || []]. *)
Definition preferred (A : Type) (a b : option (list A)) : list A :=
  match a with
  | Some (x :: l) => x :: l
  | _ => match b with
         | Some l => l
         | None => []
         end
  end.

(** [price != null && !isNaN(price)]. *)
Definition valid (price : option num) : option num :=
  match price with
  | Some p => if RealTimePriceChart.isNaN p then None else Some p
  | None => None
  end.

Section Labels.

(** [new Date(s).toLocaleTimeString('en-GB', {hour, minute})]. *)
Variable clockLabel : string -> string.

(** The [forEach] over the historical prices (lines 84-99), from [index]
    on; [len] is [historicalPrices.length]. *)
Fixpoint historicalPoints (len : nat) (historicalTimestamps : list string)
    (index : nat) (historicalPrices : list (option num)) : list Point :=
  match historicalPrices with
  | [] => []
  | price :: rest =>
      match valid price with
      | Some p =>
          let timestamp :=
            match nth_error historicalTimestamps index with
            | Some (String c s) => Parsed (String c s)
            | _ => Null
            end in
          let timeLabel :=
            match timestamp with
            | Parsed s => clockLabel s
            | _ => ("-" ++ showZ (Z.of_nat len - Z.of_nat index - 1) ++ "m")%string
            end in
          [{| time := timeLabel; original := Some p; forecastValue := None;
              type := historical; pointTimestamp := timestamp |}]
      | None => []
      end ++ historicalPoints len historicalTimestamps (S index) rest
  end.

(** Lines 103-113. *)
Definition currentPoint (now : Date) (data : ForecastData) : list Point :=
  match valid (current_price data) with
  | Some p =>
      [{| time := "Now"; original := Some p; forecastValue := Some p;
          type := current; pointTimestamp := Clock now |}]
  | None => []
  end.

(** The [forEach] over the forecasts (lines 119-132). *)
Fixpoint forecastPoints (forecasts : list (option Forecast)) : list Point :=
  match forecasts with
  | [] => []
  | f :: rest =>
      match f with
      | Some f' =>
          match valid (forecast_price f') with
          | Some p =>
              [{| time := ("+" ++ showZ (minute f') ++ "m")%string;
                  original := None; forecastValue := Some p;
                  type := forecast; pointTimestamp := Parsed (timestamp f') |}]
          | None => []
          end
      | None => []
      end ++ forecastPoints rest
  end.

(** [prepareChartData] (lines 57-138): the value given to [setChartData]. *)
Definition prepareChartData (now : Date) (data : option ForecastData)
  : list Point :=
  match data with
  | None => []
  | Some data =>
      let rawPrices := preferred (recent_prices data) (historical_prices data) in
      let rawTimestamps :=
        preferred (recent_timestamps data) (historical_timestamps data) in
      let historicalPrices := sliceLast 60 rawPrices in
      let historicalTimestamps := sliceLast 60 rawTimestamps in
      historicalPoints (List.length historicalPrices) historicalTimestamps 0
        historicalPrices
      ++ currentPoint now data
      ++ forecastPoints (preferred (forecasts data) None)
  end.

End Labels.

(** The valid prices of a list, in order. *)
Fixpoint validPrices (l : list (option num)) : list num :=
  match l with
  | [] => []
  | price :: rest =>
      match valid price with
      | Some p => p :: validPrices rest
      | None => validPrices rest
      end
  end.

End PriceForecastChart.

(* ================================================================= *)
(** ** The live Bitcoin price *)

Module BitcoinRealTimePrice.

Local Open Scope list_scope.
Local Open Scope js_scope.

Inductive Direction : Type := up | down | neutral.

Record State : Type := mkState {
  currentPrice : num;
  previousPrice : num;
  priceChange : num;
  isLoading : bool;
  lastUpdate : string;
  priceDirection : Direction
}.

Definition initial : State :=
  {| currentPrice := Fin 0; previousPrice := Fin 0; priceChange := Fin 0;
     isLoading := false; lastUpdate := ""; priceDirection := neutral |}.

(** [fetchPrice] (lines 19-55) from the settlement of
    [fetchBitcoinRealTimePrice] on: [reply] is the price, or [None] when
    the call throws.  [env] is the render whose [fetchPrice] runs, and
    [s] the live state; the prices given to [onPriceUpdate] are returned
    beside the new state. *)
Definition fetchPrice (env : State) (now : Date) (reply : option num)
    (s : State) : State * list num :=
  match reply with
  | Some price =>
      if price >? Fin 0 then
        let previousPrice' :=
          if RealTimePriceChart.truthy (currentPrice env)
          then currentPrice env else price in
        let '(priceChange', priceDirection') :=
          if currentPrice env >? Fin 0 then
            ((price - currentPrice env) / currentPrice env * Fin 100,
             if price >? currentPrice env then up
             else if price <? currentPrice env then down
             else neutral)
          else (priceChange s, priceDirection s) in
        ({| currentPrice := price; previousPrice := previousPrice';
            priceChange := priceChange'; isLoading := false;
            lastUpdate := toLocaleTimeString now;
            priceDirection := priceDirection' |}, [price])
      else
        ({| currentPrice := currentPrice s; previousPrice := previousPrice s;
            priceChange := priceChange s; isLoading := false;
            lastUpdate := lastUpdate s;
            priceDirection := priceDirection s |}, [])
  | None =>
      ({| currentPrice := currentPrice s; previousPrice := previousPrice s;
          priceChange := priceChange s; isLoading := false;
          lastUpdate := lastUpdate s;
          priceDirection := priceDirection s |}, [])
  end.

(** The effect of lines 58-62 has no dependency: the call on mount and
    every call of the 30-second interval run the [fetchPrice] of the
    first render.  [poll] settles these calls one after the other. *)
Fixpoint poll (replies : list (Date * option num)) (s : State)
  : State * list num :=
  match replies with
  | [] => (s, [])
  | (now, reply) :: rest =>
      let '(s1, told1) := fetchPrice initial now reply s in
      let '(s2, told2) := poll rest s1 in
      (s2, told1 ++ told2)
  end.

End BitcoinRealTimePrice.

(* ================================================================= *)
(** ** The portfolio *)

Module PortfolioTracker.

Local Open Scope list_scope.
Local Open Scope js_scope.

(** An entry of [cryptoData]. *)
Record Coin : Type := mkCoin {
  coin_id : string;
  coin_symbol : string;
  coin_name : string;
  current_price : num
}.

Record PortfolioHolding : Type := mkHolding {
  id : string;
  symbol : string;
  name : string;
  amount : num;
  purchasePrice : num;
  currentPrice : num;
  value : num;
  pnl : num;
  pnlPercentage : num
}.

(** The form [newHolding]. *)
Record NewHolding : Type := mkNewHolding {
  coinId : string;
  amountText : string;
  purchasePriceText : string
}.

Inductive Outcome : Type :=
| Alert (message : string)
| SetPortfolio (portfolio : list PortfolioHolding).

(** [Array.prototype.findIndex]. *)
Fixpoint findIndex (A : Type) (f : A -> bool) (l : list A) : option nat :=
  match l with
  | [] => None
  | x :: l' =>
      if f x then Some O
      else match findIndex f l' with
           | Some i => Some (S i)
           | None => None
           end
  end.

(** [l[i] = x] for an index within the array. *)
Fixpoint setAt (A : Type) (i : nat) (x : A) (l : list A) : list A :=
  match l, i with
  | [], _ => []
  | _ :: l', O => x :: l'
  | y :: l', S j => y :: setAt j x l'
  end.

Section Form.

Variable parseFloat : string -> num.
Variable toUpperCase : string -> string.

(** The holding built from the form (lines 107-124). *)
Definition holdingOf (newHolding : NewHolding) (selectedCoin : Coin)
  : PortfolioHolding :=
  let amount := parseFloat (amountText newHolding) in
  let purchasePrice := parseFloat (purchasePriceText newHolding) in
  let currentPrice := current_price selectedCoin in
  let value := amount * currentPrice in
  let pnl := value - amount * purchasePrice in
  let pnlPercentage :=
    (currentPrice - purchasePrice) / purchasePrice * Fin 100 in
  {| id := coin_id selectedCoin;
     symbol := toUpperCase (coin_symbol selectedCoin);
     name := coin_name selectedCoin;
     amount := amount; purchasePrice := purchasePrice;
     currentPrice := currentPrice; value := value; pnl := pnl;
     pnlPercentage := pnlPercentage |}.

(** The holding written over an existing one of the same coin
    (lines 128-142). *)
Definition merged (existing holding : PortfolioHolding) : PortfolioHolding :=
  let totalAmount := amount existing + amount holding in
  let avgPurchasePrice :=
    (amount existing * purchasePrice existing
     + amount holding * purchasePrice holding) / totalAmount in
  {| id := id holding; symbol := symbol holding; name := name holding;
     amount := totalAmount;
     purchasePrice := avgPurchasePrice;
     currentPrice := currentPrice holding;
     value := totalAmount * currentPrice holding;
     pnl := totalAmount * currentPrice holding - totalAmount * avgPurchasePrice;
     pnlPercentage :=
       (currentPrice holding - avgPurchasePrice) / avgPurchasePrice * Fin 100 |}.

(** [addHolding] (lines 95-150): the alert shown, or the portfolio set. *)
Definition addHolding (newHolding : NewHolding) (cryptoData : list Coin)
    (portfolio : list PortfolioHolding) : Outcome :=
  if String.eqb (coinId newHolding) "" || String.eqb (amountText newHolding) ""
     || String.eqb (purchasePriceText newHolding) ""
  then Alert "Please fill in all fields"
  else
    match find (fun coin => String.eqb (coin_id coin) (coinId newHolding))
            cryptoData with
    | None => Alert "Selected coin not found"
    | Some selectedCoin =>
        let holding := holdingOf newHolding selectedCoin in
        match findIndex (fun h => String.eqb (id h) (id holding)) portfolio with
        | Some existingIndex =>
            match nth_error portfolio existingIndex with
            | Some existing =>
                SetPortfolio (setAt existingIndex (merged existing holding) portfolio)
            | None => SetPortfolio portfolio
            end
        | None => SetPortfolio (portfolio ++ [holding])
        end
    end.

End Form.

(** [removeHolding] (lines 152-157): the portfolio set. *)
Definition removeHolding (id' : string) (portfolio : list PortfolioHolding)
  : list PortfolioHolding :=
  filter (fun h => negb (String.eqb (id h) id')) portfolio.





End PortfolioTracker.

(* ================================================================= *)
(** ** The advanced metrics of Bitcoin *)

Module BitcoinAdvancedMetrics.

Local Open Scope list_scope.
Local Open Scope js_scope.





End BitcoinAdvancedMetrics.

(* ================================================================= *)
(** * Properties *)

(** ** Numbers *)

Section NumFacts.

Local Open Scope Q_scope.

Lemma Qlt_bool_iff (a b : Q) : Qlt_bool a b = true <-> a < b.
Proof.
  unfold Qlt_bool. rewrite negb_true_iff.
  split; intro H.
  - apply Qnot_le_lt. intro Hle. apply Qle_bool_iff in Hle. congruence.
  - destruct (Qle_bool b a) eqn:E; [|reflexivity].
    apply Qle_bool_iff in E. exfalso. apply (Qlt_not_le _ _ H E).
Qed.

Lemma Qlt_bool_false (a b : Q) : Qlt_bool a b = false <-> b <= a.
Proof.
  unfold Qlt_bool. rewrite negb_false_iff. apply Qle_bool_iff.
Qed.

Lemma Qle_bool_false (a b : Q) : Qle_bool a b = false <-> b < a.
Proof.
  rewrite <- Qlt_bool_iff. unfold Qlt_bool.
  destruct (Qle_bool a b); simpl; split; congruence.
Qed.

Lemma Qeq_bool_false (a b : Q) : Qeq_bool a b = false <-> ~ a == b.
Proof.
  split.
  - intros H E. apply Qeq_bool_iff in E. congruence.
  - intro H. destruct (Qeq_bool a b) eqn:E; [|reflexivity].
    apply Qeq_bool_iff in E. contradiction.
Qed.

Lemma between_Fin (lo hi q : Q) :
  between lo hi (Fin q) = true <-> lo <= q <= hi.
Proof.
  unfold between. simpl. rewrite andb_true_iff, !Qle_bool_iff. tauto.
Qed.

Lemma between_inv (lo hi : Q) (x : num) :
  between lo hi x = true -> exists q, x = Fin q /\ lo <= q <= hi.
Proof.
  destruct x as [q| | |]; unfold between; simpl; try discriminate.
  intro H. exists q. split; [reflexivity|].
  apply andb_true_iff in H. rewrite !Qle_bool_iff in H. exact H.
Qed.

(** [Math.round] keeps a number between two integers between them. *)
Lemma round_between (lo hi : Z) (x : num) :
  between (inject_Z lo) (inject_Z hi) x = true ->
  between (inject_Z lo) (inject_Z hi) (round x) = true.
Proof.
  intro H. apply between_inv in H. destruct H as (q & -> & H1 & H2).
  unfold round. apply between_Fin. rewrite <- !Zle_Qle. split.
  - rewrite <- (Qfloor_Z lo). apply Qfloor_resp_le. lra.
  - apply Z.lt_succ_r. rewrite Zlt_Qlt.
    eapply Qle_lt_trans; [apply Qfloor_le|].
    unfold Z.succ. rewrite inject_Z_plus. change (inject_Z 1) with 1. lra.
Qed.

Lemma div_Fin (a b : Q) : ~ b == 0 -> div (Fin a) (Fin b) = Fin (a / b).
Proof.
  intro H. simpl. apply Qeq_bool_false in H. rewrite H. reflexivity.
Qed.

(** A part of a positive whole is a ratio between 0 and 1. *)
Lemma ratio_unit (a b : Q) : 0 < b -> 0 <= a <= b -> 0 <= a / b <= 1.
Proof.
  intros Hb [H0 H1]. split.
  - apply Qle_shift_div_l; [exact Hb|]. lra.
  - apply Qle_shift_div_r; [exact Hb|]. lra.
Qed.

End NumFacts.

(* ================================================================= *)
(** ** The recommendation engine *)

Section EngineFacts.

Import Engine.
Local Open Scope Q_scope.

Lemma min_Fin_le (a b : Q) : a <= b -> Num.min (Fin a) (Fin b) = Fin a.
Proof.
  intro H. unfold Num.min. simpl. apply Qle_bool_iff in H. rewrite H. reflexivity.
Qed.

Lemma min_Fin_gt (a b : Q) : b < a -> Num.min (Fin a) (Fin b) = Fin b.
Proof.
  intro H. unfold Num.min. simpl. apply Qle_bool_false in H. rewrite H. reflexivity.
Qed.

Lemma max_Fin_le (a b : Q) : a <= b -> Num.max (Fin a) (Fin b) = Fin b.
Proof.
  intro H. unfold Num.max. simpl. apply Qle_bool_iff in H. rewrite H. reflexivity.
Qed.

Lemma max_Fin_gt (a b : Q) : b < a -> Num.max (Fin a) (Fin b) = Fin a.
Proof.
  intro H. unfold Num.max. simpl. apply Qle_bool_false in H. rewrite H. reflexivity.
Qed.

(** The three rules of the news score, on a feed with a positive total. *)
Lemma newsSignal_rules (d : NewsData) :
  let pr := positive_count (summary d) / total d in
  let nr := negative_count (summary d) / total d in
  0 < total d ->
  (0.6 < pr -> fst (newsSignal (Some d)) = Fin (75 + pr * 25)) /\
  (~ 0.6 < pr -> 0.6 < nr -> fst (newsSignal (Some d)) = Fin (25 - nr * 25)) /\
  (~ 0.6 < pr -> ~ 0.6 < nr ->
   fst (newsSignal (Some d)) = Fin (40 + (pr - nr) * 20)).
Proof.
  intros pr nr Ht.
  assert (Hnz : ~ total d == 0) by lra.
  unfold newsSignal, gt. rewrite !div_Fin by exact Hnz. fold pr nr.
  cbn [lt]. apply Qlt_bool_iff in Ht. rewrite Ht.
  repeat split.
  - intro H. apply Qlt_bool_iff in H. rewrite H. reflexivity.
  - intros H1 H2. rewrite <- Qlt_bool_iff in H1. apply not_true_is_false in H1.
    apply Qlt_bool_iff in H2. rewrite H1, H2. reflexivity.
  - intros H1 H2. rewrite <- Qlt_bool_iff in H1, H2.
    apply not_true_is_false in H1, H2. rewrite H1, H2. reflexivity.
Qed.

Lemma newsSignal_default (d : NewsData) :
  total d <= 0 ->
  newsSignal (Some d) = (Fin 50, ["No recent news data available"%string]).
Proof.
  intro H. unfold newsSignal, gt. cbn [lt].
  apply Qlt_bool_false in H. rewrite H. reflexivity.
Qed.

Lemma newsSignal_bounds (newsAnalysisData : option NewsData) :
  countsWithinTotal newsAnalysisData ->
  between 0 100 (fst (newsSignal newsAnalysisData)) = true.
Proof.
  intro Hv. destruct newsAnalysisData as [d|]; [|reflexivity].
  destruct (Qlt_le_dec 0 (total d)) as [Ht|Ht].
  - destruct (Hv d eq_refl) as [Hp Hn].
    pose proof (ratio_unit Ht Hp) as Hpr.
    pose proof (ratio_unit Ht Hn) as Hnr.
    destruct (newsSignal_rules d Ht) as (R1 & R2 & R3).
    destruct (Qlt_le_dec 0.6 (positive_count (summary d) / total d)) as [H1|H1].
    + rewrite (R1 H1). apply between_Fin. lra.
    + destruct (Qlt_le_dec 0.6 (negative_count (summary d) / total d)) as [H2|H2].
      * rewrite R2 by lra. apply between_Fin. lra.
      * rewrite R3 by lra. apply between_Fin. lra.
  - rewrite (newsSignal_default d Ht). reflexivity.
Qed.

Lemma technicalSignal_bounds (tradingSignals : option TradingSignals) :
  between 0 100 (fst (technicalSignal tradingSignals)) = true.
Proof.
  destruct tradingSignals as [[[s|]]|]; try reflexivity.
  unfold technicalSignal. destruct (countVotes s) as [b r].
  destruct (0 <? b + r)%nat eqn:E; [|reflexivity].
  apply Nat.ltb_lt in E. unfold ofNat.
  assert (Hpos : 0 < inject_Z (Z.of_nat (b + r))).
  { change 0 with (inject_Z 0). rewrite <- Zlt_Qlt. lia. }
  rewrite div_Fin by lra.
  assert (Hb : 0 <= inject_Z (Z.of_nat b) <= inject_Z (Z.of_nat (b + r))).
  { change 0 with (inject_Z 0). rewrite <- !Zle_Qle. lia. }
  pose proof (ratio_unit Hpos Hb) as Hr.
  cbn [fst mul]. apply between_Fin. lra.
Qed.

(** The forecast score on a finite change in percent. *)
Lemma forecastScore_finite (c : Q) :
  let changePercent := Fin c in
  between 0 100
    (if gt changePercent 5 then add 75 (Num.min changePercent 25)
     else if lt changePercent (-5) then add 25 (Num.max changePercent (-25))
     else add 50 (mul changePercent 5)) = true.
Proof.
  cbn zeta. unfold gt. cbn [lt].
  destruct (Qlt_bool 5 c) eqn:E1.
  - apply Qlt_bool_iff in E1. destruct (Qlt_le_dec 25 c) as [H|H].
    + rewrite min_Fin_gt by exact H. apply between_Fin. simpl. lra.
    + rewrite min_Fin_le by exact H. apply between_Fin. simpl. lra.
  - apply Qlt_bool_false in E1. destruct (Qlt_bool c (-5)) eqn:E2.
    + apply Qlt_bool_iff in E2. destruct (Qlt_le_dec c (-25)) as [H|H].
      * rewrite max_Fin_le by lra. apply between_Fin. simpl. lra.
      * destruct (Qeq_dec c (-25)) as [He|He].
        -- rewrite max_Fin_le by lra. apply between_Fin. simpl. lra.
        -- rewrite max_Fin_gt by lra. apply between_Fin. simpl. lra.
    + apply Qlt_bool_false in E2. apply between_Fin. simpl. lra.
Qed.

(** The forecast score on an infinite change in percent, which a current
    price of zero gives. *)
Lemma forecastScore_infinite (a : Q) :
  ~ a == 0 ->
  let changePercent := (Fin a / Fin 0 * Fin 100)%js in
  between 0 100
    (if gt changePercent 5 then add 75 (Num.min changePercent 25)
     else if lt changePercent (-5) then add 25 (Num.max changePercent (-25))
     else add 50 (mul changePercent 5)) = true.
Proof.
  intro Ha. cbn zeta. cbn [div]. change (Qeq_bool 0 0) with true. cbn iota.
  destruct (a ?= 0) eqn:E.
  - apply Qeq_alt in E. contradiction.
  - reflexivity.
  - reflexivity.
Qed.

Lemma div_by_zero (a b : Q) : b == 0 -> div (Fin a) (Fin b) = div (Fin a) (Fin 0).
Proof.
  intro H. cbn [div]. apply Qeq_bool_iff in H. rewrite H. reflexivity.
Qed.

Lemma forecastSignal_bounds (forecastData : option ForecastData)
    (cryptoData : option CryptoData) :
  pricesNotBothZero forecastData cryptoData ->
  between 0 100 (fst (forecastSignal forecastData cryptoData)) = true.
Proof.
  intro Hp. unfold forecastSignal.
  destruct forecastData as [[e [ps|]]|]; try reflexivity.
  destruct cryptoData as [c|]; [|reflexivity].
  unfold pricesNotBothZero, shortTermPrediction in Hp.
  destruct (find _ ps) as [p|]; [|reflexivity].
  specialize (Hp p c eq_refl eq_refl).
  unfold sub. cbn [neg add].
  destruct (Qeq_dec (current_price c) 0) as [Hz|Hnz].
  - rewrite (div_by_zero _ Hz).
    assert (Ha : ~ predicted_price p + - current_price c == 0).
    { intro E. apply Hp. split; [exact Hz|]. rewrite Hz in E. lra. }
    pose proof (forecastScore_infinite Ha) as H. cbn zeta in H.
    destruct (gt _ 5); [exact H|]. destruct (lt _ (-5)); exact H.
  - rewrite div_Fin by exact Hnz.
    pose proof (forecastScore_finite
                  ((predicted_price p + - current_price c) / current_price c * 100))
      as H.
    cbn zeta in H. cbn [mul].
    destruct (gt _ 5); [exact H|]. destruct (lt _ (-5)); exact H.
Qed.

Lemma overallScore_Fin (n t f : Q) :
  overallScore n t f = Fin (n * 0.3 + t * 0.4 + f * 0.3).
Proof. reflexivity. Qed.

(** The three bands of [decide] on a finite overall score. *)
Lemma decide_bands (o : Q) :
  (70 <= o -> decide o = (BUY, Num.min o 95)) /\
  (o <= 30 -> decide o = (SELL, Num.min (Fin (100 - o)) 95)) /\
  (30 < o < 70 -> decide o = (NEUTRAL, Fin (Qabs (50 - o) * 2))).
Proof.
  unfold decide, ge. cbn [le]. repeat split.
  - intro H. apply Qle_bool_iff in H. rewrite H. reflexivity.
  - intro H. assert (H' : 70 > o) by lra.
    apply Qle_bool_false in H'. apply Qle_bool_iff in H. rewrite H', H. reflexivity.
  - intros [H1 H2]. apply Qle_bool_false in H1, H2. rewrite H1, H2. reflexivity.
Qed.

Lemma decide_bounds (o : Q) :
  0 <= o <= 100 -> between 0 95 (snd (decide o)) = true.
Proof.
  intros [H0 H1]. destruct (decide_bands o) as (B & S & N).
  destruct (Qlt_le_dec o 70) as [H70|H70].
  - destruct (Qlt_le_dec 30 o) as [H30|H30].
    + rewrite N by (split; assumption). apply between_Fin. cbn [snd].
      destruct (Qlt_le_dec o 50) as [H50|H50].
      * rewrite Qabs_pos by lra. lra.
      * rewrite Qabs_neg by lra. lra.
    + rewrite S by exact H30. cbn [snd].
      destruct (Qlt_le_dec 95 (100 - o)) as [H|H].
      * rewrite min_Fin_gt by exact H. reflexivity.
      * rewrite min_Fin_le by exact H. apply between_Fin. lra.
  - rewrite B by exact H70. cbn [snd].
    destruct (Qlt_le_dec 95 o) as [H|H].
    + rewrite min_Fin_gt by exact H. reflexivity.
    + rewrite min_Fin_le by exact H. apply between_Fin. lra.
Qed.

End EngineFacts.

Section EngineClaims.

Import Engine Examples.
Local Open Scope Q_scope.


(** C1, as amended.  When the positive and the negative count of the
    news feed lie between 0 and its total, and the current price and the
    predicted price are not both zero, then whichever inputs are present or
    absent each sub-score of the breakdown lies in [0,100] and the
    confidence in [0,95]. *)
Theorem recommendation_bounded
    (newsAnalysisData : option NewsData)
    (tradingSignals : option TradingSignals)
    (forecastData : option ForecastData) (cryptoData : option CryptoData) :
  countsWithinTotal newsAnalysisData ->
  pricesNotBothZero forecastData cryptoData ->
  bounded
    (calculateRecommendation newsAnalysisData tradingSignals forecastData cryptoData) = true.
Proof.
  intros Hn Hp.
  pose proof (newsSignal_bounds Hn) as Bn.
  pose proof (technicalSignal_bounds tradingSignals) as Bt.
  pose proof (forecastSignal_bounds Hp) as Bf.
  unfold calculateRecommendation.
  destruct (newsSignal newsAnalysisData) as [n rn].
  destruct (technicalSignal tradingSignals) as [t rt].
  destruct (forecastSignal forecastData cryptoData) as [f rf].
  cbn [fst] in Bn, Bt, Bf.
  pose proof (round_between 0 100 _ Bn) as Rn.
  pose proof (round_between 0 100 _ Bt) as Rt.
  pose proof (round_between 0 100 _ Bf) as Rf.
  apply between_inv in Bn, Bt, Bf.
  destruct Bn as (qn & -> & Hqn), Bt as (qt & -> & Hqt), Bf as (qf & -> & Hqf).
  rewrite overallScore_Fin.
  assert (Ho : 0 <= qn * 0.3 + qt * 0.4 + qf * 0.3 <= 100) by lra.
  pose proof (decide_bounds Ho) as Bc.
  destruct (decide _) as [a c]. cbn [snd] in Bc.
  pose proof (round_between 0 95 c Bc) as Rc.
  unfold bounded. cbn [breakdown news technical forecast confidence].
  change (inject_Z 0) with 0 in *. change (inject_Z 100) with 100 in *.
  change (inject_Z 95) with 95 in *.
  rewrite Rn, Rt, Rf, Rc. reflexivity.
Qed.

Lemma recommendation_bounded_witness :
  bounded (calculateRecommendation (Some news_8_1_10) (Some allBullish)
             (Some (forecastOf 110)) (Some (coinAt 100))) = true.
Proof.
  apply recommendation_bounded.
  - intros d E. injection E as <-. simpl. split; split; discriminate.
  - intros p c Ep Ec. injection Ec as <-. intros [H _]. discriminate H.
Defined.

(** C1 fails as stated, for every combination of inputs: a positive count
    of 20 in a total of 10 gives the news sub-score 125, and a current
    price and a predicted price that are both 0 make the forecast sub-score
    and the confidence [NaN]. *)
Lemma recommendation_not_always_bounded :
  (let r := calculateRecommendation (Some news_20_of_10) None None None in
   news (breakdown r) = Fin 125 /\ bounded r = false) /\
  (let r := calculateRecommendation None None (Some (forecastOf 0)) (Some (coinAt 0)) in
   forecast (breakdown r) = NaN /\ confidence r = NaN /\ bounded r = false).
Proof. vm_compute. repeat split. Qed.



(** C3.  With pr = positive/total and nr = negative/total on a feed whose
    total is positive, the news score is 75 + pr*25 when pr > 0.6, else
    25 - nr*25 when nr > 0.6, else 40 + (pr - nr)*20; counts that are
    parts of the total cannot have both ratios above 0.6, so the order of
    the first two rules is then immaterial; an absent feed and a total of 0
    give 50 with the reason "No recent news data available"; 8 positive
    and 1 negative of 10 give 95. *)
Theorem news_score_rules (d : NewsData) :
  let pr := positive_count (summary d) / total d in
  let nr := negative_count (summary d) / total d in
  (0 < total d ->
   (0.6 < pr -> fst (newsSignal (Some d)) = Fin (75 + pr * 25)) /\
   (~ 0.6 < pr -> 0.6 < nr -> fst (newsSignal (Some d)) = Fin (25 - nr * 25)) /\
   (~ 0.6 < pr -> ~ 0.6 < nr ->
    fst (newsSignal (Some d)) = Fin (40 + (pr - nr) * 20)) /\
   (0 <= positive_count (summary d) ->
    positive_count (summary d) + negative_count (summary d) <= total d ->
    0.6 < nr -> fst (newsSignal (Some d)) = Fin (25 - nr * 25))) /\
  (total d <= 0 ->
   newsSignal (Some d) = (Fin 50, ["No recent news data available"%string])) /\
  newsSignal None = (Fin 50, ["No recent news data available"%string]) /\
  eqn (fst (newsSignal (Some news_8_1_10))) (Fin 95) /\
  news (breakdown (calculateRecommendation (Some news_8_1_10) None None None)) = Fin 95.
Proof.
  intros pr nr. split; [|split; [|split; [|split]]].
  - intro Ht. destruct (newsSignal_rules d Ht) as (R1 & R2 & R3).
    repeat split; try assumption.
    intros Hp Hsum Hnr. apply R2; [|exact Hnr].
    intro Hpr. fold nr in Hnr. fold pr in Hpr.
    assert (E : pr + nr == (positive_count (summary d) + negative_count (summary d)) / total d).
    { unfold pr, nr. field. lra. }
    assert (Hle : pr + nr <= 1).
    { rewrite E. apply Qle_shift_div_r; [exact Ht|]. lra. }
    lra.
  - apply newsSignal_default.
  - reflexivity.
  - vm_compute. reflexivity.
  - vm_compute. reflexivity.
Qed.

Lemma news_score_rules_witness :
  fst (newsSignal (Some news_8_1_10)) = Fin (75 + (8 / 10) * 25).
Proof.
  destruct (news_score_rules news_8_1_10) as (H & _).
  destruct (H ltac:(reflexivity)) as (R1 & _).
  apply R1. reflexivity.
Defined.

End EngineClaims.

(* ================================================================= *)
(** ** Dates and staleness *)

Section ClockFacts.

Local Open Scope Z_scope.

Lemma append_inj (a b x y : string) :
  String.length a = String.length b ->
  (a ++ x = b ++ y)%string -> a = b /\ x = y.
Proof.
  revert b. induction a as [|c a IH]; intros [|c' b] Hlen H;
    simpl in *; try discriminate.
  - split; [reflexivity|exact H].
  - injection H as -> H. injection Hlen as Hlen.
    destruct (IH b Hlen H) as [-> ->]. split; reflexivity.
Qed.

Lemma name_inj (names : list string) :
  NoDup names ->
  forall i j, 0 <= i < Z.of_nat (List.length names) ->
    0 <= j < Z.of_nat (List.length names) ->
    nth (Z.to_nat i) names "" = nth (Z.to_nat j) names "" -> i = j.
Proof.
  intros Hnd i j Hi Hj H.
  assert (Z.to_nat i = Z.to_nat j); [|lia].
  apply (proj1 (NoDup_nth names "") Hnd); [lia|lia|exact H].
Qed.

Lemma name_length (names : list string) (n : nat) :
  Forall (fun s => String.length s = n) names ->
  forall i, 0 <= i < Z.of_nat (List.length names) ->
    String.length (nth (Z.to_nat i) names "") = n.
Proof.
  intros H i Hi. rewrite Forall_forall in H. apply H. apply nth_In. lia.
Qed.

Lemma NoDup_dayNames : NoDup dayNames.
Proof.
  unfold dayNames.
  repeat (constructor; [simpl; intuition discriminate|]). constructor.
Qed.

Lemma NoDup_monthNames : NoDup monthNames.
Proof.
  unfold monthNames.
  repeat (constructor; [simpl; intuition discriminate|]). constructor.
Qed.

Lemma digit_inj (a b : Z) :
  0 <= a <= 9 -> 0 <= b <= 9 -> digit a = digit b -> a = b.
Proof.
  intros Ha Hb H. unfold digit in H.
  apply (f_equal N_of_ascii) in H.
  rewrite !N_ascii_embedding in H by lia. lia.
Qed.

Lemma pad2_inj (a b : Z) :
  0 <= a <= 99 -> 0 <= b <= 99 -> pad2 a = pad2 b -> a = b.
Proof.
  intros Ha Hb H. unfold pad2 in H. injection H as H1 H0.
  apply digit_inj in H1; [|Z.to_euclidean_division_equations; lia ..].
  apply digit_inj in H0; [|Z.to_euclidean_division_equations; lia ..].
  Z.to_euclidean_division_equations; lia.
Qed.

Lemma pad4_inj (a b : Z) :
  0 <= a <= 9999 -> 0 <= b <= 9999 -> pad4 a = pad4 b -> a = b.
Proof.
  intros Ha Hb H. unfold pad4, pad2 in H. injection H as H3 H2 H1 H0.
  apply digit_inj in H1; [|Z.to_euclidean_division_equations; lia ..].
  apply digit_inj in H0; [|Z.to_euclidean_division_equations; lia ..].
  apply digit_inj in H3; [|Z.to_euclidean_division_equations; lia ..].
  apply digit_inj in H2; [|Z.to_euclidean_division_equations; lia ..].
  Z.to_euclidean_division_equations; lia.
Qed.

Lemma format_inj (d m p y d' m' p' y' : string) :
  String.length d = String.length d' ->
  String.length m = String.length m' ->
  String.length p = String.length p' ->
  (d ++ " " ++ m ++ " " ++ p ++ " " ++ y
   = d' ++ " " ++ m' ++ " " ++ p' ++ " " ++ y')%string ->
  d = d' /\ m = m' /\ p = p' /\ y = y'.
Proof.
  intros Ld Lm Lp H.
  apply append_inj in H; [|exact Ld]. destruct H as [-> H].
  injection H as H.
  apply append_inj in H; [|exact Lm]. destruct H as [-> H].
  injection H as H.
  apply append_inj in H; [|exact Lp]. destruct H as [-> H].
  injection H as ->. repeat split.
Qed.

(** The date string determines the calendar day, and conversely. *)
Lemma toDateString_calendar (a b : Date) :
  wellFormed a -> wellFormed b ->
  (toDateString a = toDateString b <-> sameCalendarDay a b).
Proof.
  intros (Hy & Hm & Hd & Hw) (Hy' & Hm' & Hd' & Hw'). split.
  - unfold toDateString. intro H.
    apply format_inj in H.
    + destruct H as (Hday & Hmon & Hdate & Hyear).
      apply name_inj in Hday; [|apply NoDup_dayNames|simpl; lia ..].
      apply name_inj in Hmon; [|apply NoDup_monthNames|simpl; lia ..].
      apply pad2_inj in Hdate; [|lia ..].
      apply pad4_inj in Hyear; [|lia ..].
      repeat split; assumption.
    + rewrite !(name_length (names := dayNames) (n := 3));
        try (simpl; lia); repeat constructor.
    + rewrite !(name_length (names := monthNames) (n := 3));
        try (simpl; lia); repeat constructor.
    + reflexivity.
  - intros (E1 & E2 & E3 & E4). unfold toDateString.
    rewrite E1, E2, E3, E4. reflexivity.
Qed.

Lemma sameCalendarDay_string (a b : Date) :
  sameCalendarDay a b -> toDateString a = toDateString b.
Proof.
  intros (E1 & E2 & E3 & E4). unfold toDateString.
  rewrite E1, E2, E3, E4. reflexivity.
Qed.

End ClockFacts.

Section StalenessClaims.

Import Examples.
Local Open Scope Z_scope.

Lemma shouldUpdateCandleData_true (lastCandleFetchDate : string)
    (candleData : option CandleData) (now : Date) :
  shouldUpdateCandleData lastCandleFetchDate candleData now = true <->
  candleData = None \/ lastCandleFetchDate <> toDateString now.
Proof.
  unfold shouldUpdateCandleData. cbn zeta.
  destruct (String.eqb_spec lastCandleFetchDate (toDateString now)) as [E|E];
    destruct candleData as [c|]; simpl; split; auto.
  - intro H. discriminate.
  - intros [H|H]; [discriminate|contradiction].
Qed.

(** C8.  [shouldUpdateCandleData] answers true exactly when the dataset is
    absent or the date it was fetched on is not today's, and false
    otherwise; for a dataset stamped at the instant [fetched] that is when
    [fetched] and [now] lie on different calendar days, however few
    minutes apart; and a call at a later instant of the same day, the
    state unchanged, gives the same answer. *)
Theorem shouldUpdateCandleData_calendar_day
    (lastCandleFetchDate : string) (candleData : option CandleData)
    (fetched now later : Date) :
  wellFormed fetched -> wellFormed now -> sameCalendarDay now later ->
  (shouldUpdateCandleData lastCandleFetchDate candleData now = true <->
   candleData = None \/ lastCandleFetchDate <> toDateString now) /\
  (shouldUpdateCandleData lastCandleFetchDate candleData now = false <->
   candleData <> None /\ lastCandleFetchDate = toDateString now) /\
  (forall c,
     shouldUpdateCandleData (toDateString fetched) (Some c) now = true <->
     ~ sameCalendarDay fetched now) /\
  shouldUpdateCandleData lastCandleFetchDate candleData later
  = shouldUpdateCandleData lastCandleFetchDate candleData now.
Proof.
  intros Wf Wn Hsame. split; [|split; [|split]].
  - apply shouldUpdateCandleData_true.
  - unfold shouldUpdateCandleData. cbn zeta.
    destruct (String.eqb_spec lastCandleFetchDate (toDateString now)) as [E|E];
      destruct candleData as [c|]; simpl; split;
      try discriminate; try (intros [H1 H2]; congruence).
    intros _. split; [discriminate|exact E].
  - intro c. rewrite shouldUpdateCandleData_true.
    rewrite <- (toDateString_calendar Wf Wn). split.
    + intros [H|H]; [discriminate|exact H].
    + intro H. right. exact H.
  - unfold shouldUpdateCandleData.
    rewrite (sameCalendarDay_string Hsame). reflexivity.
Qed.

Lemma shouldUpdateCandleData_calendar_day_witness :
  minutesBetween nov1_2359 nov2_0000 = 1 /\
  shouldUpdateCandleData (toDateString nov1_2359)
    (Some (candlesOf nov1_2359)) nov2_0000 = true /\
  shouldUpdateCandleData (toDateString nov2_0000)
    (Some (candlesOf nov2_0000)) nov2_2359 = false.
Proof.
  assert (W1 : wellFormed nov1_2359) by (unfold wellFormed; simpl; lia).
  assert (W2 : wellFormed nov2_0000) by (unfold wellFormed; simpl; lia).
  assert (S2 : sameCalendarDay nov2_0000 nov2_2359) by (repeat split).
  split; [reflexivity|]. split.
  - destruct (shouldUpdateCandleData_calendar_day
                "" None (later := nov2_2359) W1 W2 S2) as (_ & _ & H & _).
    apply H. intros (_ & _ & E & _). discriminate.
  - destruct (shouldUpdateCandleData_calendar_day
                (toDateString nov2_0000) (Some (candlesOf nov2_0000))
                (later := nov2_2359) W2 W2 S2) as (_ & H & _ & E).
    rewrite E. apply H. split; [discriminate|reflexivity].
Defined.

(** Whenever a dataset is consulted on the same day of another month,
    the date-string check finds it stale and the day-of-month check
    fresh. *)
Lemma same_day_of_other_month (fetched now : Date) (c : CandleData) :
  wellFormed fetched -> wellFormed now ->
  fetched_at c = fetched ->
  getMonth fetched <> getMonth now -> getDate fetched = getDate now ->
  shouldUpdateCandleData (toDateString fetched) (Some c) now = true /\
  shouldUpdate (Some c) now = false.
Proof.
  intros Wf Wn Ec Hm Hd. split.
  - apply shouldUpdateCandleData_true. right.
    intro E. apply (toDateString_calendar Wf Wn) in E.
    destruct E as (_ & E & _). contradiction.
  - unfold shouldUpdate. rewrite Ec, Hd, Z.eqb_refl. reflexivity.
Qed.

(** C9.  The two daily checks disagree across a month boundary: for a
    dataset fetched on 2 October and consulted on 2 November, an earlier
    calendar day with the same day of the month, the date-string check of
    [shouldUpdateCandleData] finds it stale while the day-of-month check
    inside [fetchCandleData] finds it fresh. *)
Theorem daily_checks_disagree :
  exists (fetched now : Date) (c : CandleData),
    wellFormed fetched /\ wellFormed now /\
    fetched_at c = fetched /\
    earlierDay fetched now /\
    getMonth fetched <> getMonth now /\
    getDate fetched = getDate now /\
    shouldUpdateCandleData (toDateString fetched) (Some c) now = true /\
    shouldUpdate (Some c) now = false.
Proof.
  exists oct2, nov2, (candlesOf oct2).
  assert (Wf : wellFormed oct2) by (unfold wellFormed; simpl; lia).
  assert (Wn : wellFormed nov2) by (unfold wellFormed; simpl; lia).
  destruct (@same_day_of_other_month oct2 nov2 (candlesOf oct2) Wf Wn eq_refl)
    as [H1 H2]; [discriminate|reflexivity|].
  repeat split; try assumption; try (simpl; lia); try discriminate.
  right. simpl. lia.
Qed.

End StalenessClaims.

(* ================================================================= *)
(** ** The fan-out *)

Section SortFacts.

Variable A : Type.
Variable compareFn : A -> A -> Q.

(** [a] may stand before [b]. *)
Let before (a b : A) : Prop := (compareFn a b <= 0)%Q.

Hypothesis before_total : forall a b, before a b \/ before b a.
Hypothesis before_trans : forall a b c, before a b -> before b c -> before a c.

Lemma insert_perm (x : A) (l : list A) :
  Permutation (x :: l) (Fanout.insert compareFn x l).
Proof.
  induction l as [|y l IH]; simpl.
  - apply Permutation_refl.
  - destruct (Qle_bool (compareFn x y) 0).
    + apply Permutation_refl.
    + eapply perm_trans; [apply perm_swap|]. apply perm_skip. exact IH.
Qed.

Lemma sort_perm (l : list A) : Permutation l (Fanout.sort compareFn l).
Proof.
  induction l as [|x l IH]; simpl.
  - apply perm_nil.
  - eapply perm_trans; [|apply insert_perm]. apply perm_skip. exact IH.
Qed.

Lemma insert_sorted (x : A) (l : list A) :
  StronglySorted before l -> StronglySorted before (Fanout.insert compareFn x l).
Proof.
  induction l as [|y l IH]; intro Hs; simpl.
  - repeat constructor.
  - inversion Hs as [|? ? Hl Hy]; subst.
    destruct (Qle_bool (compareFn x y) 0) eqn:E.
    + apply Qle_bool_iff in E. constructor; [exact Hs|].
      constructor; [exact E|].
      rewrite Forall_forall in *. intros z Hz.
      eapply before_trans; [exact E|]. apply Hy. exact Hz.
    + constructor; [apply IH; exact Hl|].
      assert (Hyx : before y x).
      { destruct (before_total x y) as [H|H]; [|exact H].
        apply Qle_bool_iff in H. congruence. }
      rewrite Forall_forall in *. intros z Hz.
      apply (Permutation_in _ (Permutation_sym (insert_perm x l))) in Hz.
      destruct Hz as [<-|Hz]; [exact Hyx|apply Hy; exact Hz].
Qed.

Lemma sort_sorted (l : list A) : StronglySorted before (Fanout.sort compareFn l).
Proof.
  induction l as [|x l IH]; simpl.
  - constructor.
  - apply insert_sorted. exact IH.
Qed.



End SortFacts.

Section FanoutFacts.

Import Fanout.
Local Open Scope list_scope.
Local Open Scope nat_scope.


Lemma survives_entry (r : Response) :
  survives r = true <-> treemapEntry r <> None.
Proof.
  destruct r as [|[|] [data|]]; cbn [survives treemapEntry];
    try (split; [discriminate|congruence]).
  destruct (2 <=? List.length data) eqn:E; [|split; [discriminate|congruence]].
  apply Nat.leb_le in E.
  destruct (nth_error data (List.length data - 1)) eqn:E1.
  - destruct (nth_error data (List.length data - 2)) eqn:E2.
    + split; [discriminate|reflexivity].
    + apply nth_error_None in E2. lia.
  - apply nth_error_None in E1. lia.
Qed.

Lemma not_survives_entry (r : Response) :
  survives r = false <-> treemapEntry r = None.
Proof.
  pose proof (survives_entry r) as H.
  destruct (survives r), (treemapEntry r); split; try congruence; intro.
  - exfalso. apply (proj1 H eq_refl). reflexivity.
  - exfalso. assert (false = true) by (apply H; discriminate). discriminate.
Qed.

Lemma validCoins_In (results : list (option Coin)) (c : Coin) :
  In c (validCoins results) <-> In (Some c) results.
Proof.
  induction results as [|[d|] results IH]; simpl.
  - tauto.
  - rewrite IH. split; intros [H|H]; auto; left; congruence.
  - rewrite IH. split; [auto|]. intros [H|H]; [discriminate|exact H].
Qed.


Lemma validCoins_nil (responses : list Response) :
  (forall r, In r responses -> survives r = false) ->
  validCoins (map treemapEntry responses) = [].
Proof.
  intro H. induction responses as [|r responses IH]; [reflexivity|]. simpl.
  rewrite (proj1 (not_survives_entry r) (H r (or_introl eq_refl))).
  apply IH. intros r' Hr'. apply H. right. exact Hr'.
Qed.



End FanoutFacts.

Section FanoutClaims.

Import Fanout.
Local Open Scope list_scope.
Local Open Scope nat_scope.



Lemma publish_some (results : list (option Coin)) (treemapData : list Coin) :
  validCoins results <> [] ->
  publish results treemapData
  = slice0 50 (Fanout.sort byMarketCap (validCoins results)).
Proof.
  intro H. unfold publish. destruct (validCoins results); [congruence|reflexivity].
Qed.

Lemma survivor_valid (responses : list Response) :
  (exists r, In r responses /\ survives r = true) ->
  validCoins (map treemapEntry responses) <> [].
Proof.
  intros (r & Hin & Hs) E.
  apply survives_entry in Hs. destruct (treemapEntry r) as [c|] eqn:Ec; [|congruence].
  assert (Hc : In c (validCoins (map treemapEntry responses))).
  { apply validCoins_In. rewrite <- Ec. apply in_map. exact Hin. }
  rewrite E in Hc. destruct Hc.
Qed.


(** The pass of [Examples.universeEvents], run through the event loop,
    publishes what [refreshUniverse] computes from the 50 replies: the 47
    survivors. *)
Example pass_with_three_failures :
  let w := fst (Scheduler.steps Examples.universeEvents
                  (fst (Scheduler.mount Examples.nov2))) in
  Store.treemapData (Scheduler.store w)
  = refreshUniverse (map Dashboard.responseOf Examples.universeReplies) [] /\
  List.length (Store.treemapData (Scheduler.store w)) = 47.
Proof. vm_compute. split; reflexivity. Qed.


(** C10.  A pass in which no symbol survives leaves the published
    universe as it was, and the tail of [fetchTreemapData] then writes
    nothing to the store; a pass with at least one surviving symbol
    replaces the universe by the ranked survivors. *)
Theorem empty_pass_keeps_universe
    (responses : list Response) (treemapData : list Coin)
    (now : Date) (s : Store.Store) :
  ((forall r, In r responses -> survives r = false) ->
   refreshUniverse responses treemapData = treemapData /\
   Async.run now (Dashboard.publishTreemap (map treemapEntry responses)) s
   = (Async.Ret tt, s, [])) /\
  ((exists r, In r responses /\ survives r = true) ->
   let ranked :=
     slice0 50 (Fanout.sort byMarketCap (validCoins (map treemapEntry responses))) in
   refreshUniverse responses treemapData = ranked /\
   ranked <> [] /\
   Store.treemapData
     (snd (fst (Async.run now
                  (Dashboard.publishTreemap (map treemapEntry responses)) s)))
   = ranked).
Proof.
  split.
  - intro H. pose proof (@validCoins_nil responses H) as E.
    unfold refreshUniverse, publish, Dashboard.publishTreemap.
    rewrite E. split; reflexivity.
  - intros Hex ranked. pose proof (@survivor_valid responses Hex) as Hne.
    split; [apply publish_some; exact Hne|].
    unfold Dashboard.publishTreemap. subst ranked.
    destruct (validCoins (map treemapEntry responses)) as [|c l] eqn:E;
      [congruence|].
    split; [|reflexivity].
    intro Hnil. apply (f_equal (@List.length Coin)) in Hnil.
    unfold slice0 in Hnil. rewrite length_firstn in Hnil.
    rewrite <- (Permutation_length (sort_perm byMarketCap (c :: l))) in Hnil.
    simpl in Hnil. discriminate.
Qed.

Lemma empty_pass_keeps_universe_witness :
  refreshUniverse [Threw; Body false None; Body true (Some [Examples.row "tether" 1 900 1])]
    Examples.sampleUniverse = Examples.sampleUniverse
  /\ map id (refreshUniverse Examples.sampleResponses Examples.sampleUniverse)
     = ["ethereum"; "bitcoin"]%string.
Proof.
  split.
  - destruct (empty_pass_keeps_universe
                [Threw; Body false None; Body true (Some [Examples.row "tether" 1 900 1])]
                Examples.sampleUniverse Examples.nov2 Store.initial) as (H & _).
    apply H. intros r [<-|[<-|[<-|[]]]]; reflexivity.
  - destruct (empty_pass_keeps_universe Examples.sampleResponses
                Examples.sampleUniverse Examples.nov2 Store.initial) as (_ & H).
    destruct H as (E & _).
    { eexists. split; [left; reflexivity|reflexivity]. }
    rewrite E. reflexivity.
Defined.

End FanoutClaims.

(* ================================================================= *)
(** ** The timers and the outstanding fetches *)

Section SchedulerFacts.

Import Store Async Dashboard Scheduler.
Local Open Scope list_scope.
Local Open Scope nat_scope.

Lemma nth_error_snoc (A : Type) (l : list A) (x : A) :
  nth_error (l ++ [x]) (List.length l) = Some x.
Proof.
  rewrite nth_error_app2 by lia. rewrite Nat.sub_diag. reflexivity.
Qed.

Lemma update_snoc (A : Type) (l : list A) (x y : A) :
  update (List.length l) y (l ++ [x]) = l ++ [y].
Proof.
  induction l as [|z l IH]; simpl; [reflexivity|]. rewrite IH. reflexivity.
Qed.

Lemma inFlight_snoc (t t' : Task) (p : Proc unit) (w : World) (s c : Store) :
  inFlight t {| store := s; closure := c; pool := pool w ++ [(t', p)] |}
  = inFlight t w ++ inFlight t {| store := s; closure := c; pool := [(t', p)] |}.
Proof.
  unfold inFlight. cbn [pool]. rewrite filter_app, map_app. reflexivity.
Qed.

(** A tick calls the function of the task, whatever the pool holds. *)
Lemma tick_invoke (now : Date) (t : Task) (w : World) :
  exists p,
    pool (fst (step now (Tick t) w)) = pool w ++ [(t, p)] /\
    closure (fst (step now (Tick t) w)) = closure w /\
    run now (body t (closure w)) (store w)
    = (p, store (fst (step now (Tick t) w)), snd (step now (Tick t) w)).
Proof.
  unfold step, invoke.
  destruct (run now (body t (closure w)) (store w)) as [[p s] sent].
  exists p. repeat split.
Qed.

(** A settlement neither reads nor changes the timers. *)
Lemma settle_closure (now : Date) (i : nat) (path : list nat) (reply : Reply)
    (w : World) :
  closure (fst (step now (Settle i path reply) w)) = closure w.
Proof.
  unfold step. destruct (nth_error (pool w) i) as [[t p]|]; [|reflexivity].
  destruct (deliver now path reply p (store w)) as [[[p' s] sent]|]; reflexivity.
Qed.

(** A settlement reaches its invocation whatever coin is selected. *)
Lemma settle_deliver (now : Date) (i : nat) (path : list nat) (reply : Reply)
    (w : World) (t : Task) (p p' : Proc unit) (s : Store) (sent : list Request) :
  nth_error (pool w) i = Some (t, p) ->
  deliver now path reply p (store w) = Some (p', s, sent) ->
  step now (Settle i path reply) w
  = ({| store := s; closure := closure w; pool := update i (t, p') (pool w) |},
     sent).
Proof.
  intros Hp Hd. unfold step. rewrite Hp, Hd. reflexivity.
Qed.

Lemma invoke_eq (now : Date) (t : Task) (env : Store) (w : World) :
  invoke now t env w
  = ({| store := snd (fst (run now (body t env) (store w)));
        closure := closure w;
        pool := pool w ++ [(t, fst (fst (run now (body t env) (store w))))] |},
     snd (run now (body t env) (store w))).
Proof.
  unfold invoke. destruct (run now (body t env) (store w)) as [[p s] sent].
  reflexivity.
Qed.

(** No task writes [selectedCoin] before its first suspension. *)
Lemma run_keeps_coin (now : Date) (t : Task) (env s : Store) :
  selectedCoin (snd (fst (run now (body t env) s))) = selectedCoin s.
Proof.
  destruct t; unfold body.
  - unfold refreshAllData, fetchMinIOData.
    destruct (String.eqb (selectedCoin env) ""); vm_compute; reflexivity.
  - vm_compute. reflexivity.
  - unfold checkAndUpdateCandleData. cbn [run].
    destruct (shouldUpdateCandleData _ _ now); [|reflexivity].
    unfold fetchCandleData. cbn [run].
    destruct (shouldUpdate _ now); reflexivity.
Qed.

(** Selecting another coin keeps every invocation where it is and makes
    the coin the selected one. *)
Lemma select_keeps_pool (now : Date) (coin : string) (w : World) :
  coin <> selectedCoin (store w) ->
  selectedCoin (store (fst (step now (SelectCoin coin) w))) = coin /\
  exists a b c,
    pool (fst (step now (SelectCoin coin) w))
    = pool w ++ [(RefreshAllData, a); (RefreshForecastData, b);
                 (CheckAndUpdateCandleData, c)].
Proof.
  intro H. apply String.eqb_neq in H.
  unfold step. rewrite H. unfold effects.
  rewrite !invoke_eq. cbn [fst snd store closure pool].
  split.
  - rewrite !run_keeps_coin.
    destruct (String.eqb _ ""); reflexivity.
  - rewrite <- !app_assoc. do 3 eexists. reflexivity.
Qed.

End SchedulerFacts.

Section SchedulerClaims.

Import Store Async Dashboard Scheduler Examples.
Local Open Scope list_scope.
Local Open Scope nat_scope.

Lemma inFlight_invoke (now : Date) (t : Task) (env : Store) (w : World) :
  completed (fst (fst (run now (body t env) (store w)))) = false ->
  List.length (inFlight t (fst (invoke now t env w)))
  = S (List.length (inFlight t w)).
Proof.
  intro H. rewrite invoke_eq. cbn [fst].
  rewrite inFlight_snoc, length_app. unfold inFlight at 2. cbn [pool filter fst snd].
  rewrite H. destruct t; cbn; lia.
Qed.

(** C5, as amended.  A tick of a task always calls its function, whether
    or not an earlier invocation of the task is still in flight: the
    earlier invocations stay as they are and the new one sends its
    requests at once, 52 for the price refresh of a selected coin, the
    MinIO request for the forecast refresh, one request for a candle check
    that finds the data stale; invocations of one task overlap, and no
    tick is skipped, queued or deferred. *)
Theorem tick_always_invokes (now : Date) (w : World) :
  let coin := selectedCoin (closure w) in
  (forall t, exists p,
     pool (fst (step now (Tick t) w)) = pool w ++ [(t, p)] /\
     closure (fst (step now (Tick t) w)) = closure w) /\
  (coin <> ""%string ->
   snd (step now (Tick RefreshAllData) w)
   = ApiCrypto coin :: ApiCrypto coin :: map ApiCrypto Fanout.coinIds /\
   List.length (snd (step now (Tick RefreshAllData) w)) = 52 /\
   List.length (inFlight RefreshAllData (fst (step now (Tick RefreshAllData) w)))
   = S (List.length (inFlight RefreshAllData w))) /\
  (snd (step now (Tick RefreshForecastData) w) = [ApiForecast coin "minio"] /\
   List.length (inFlight RefreshForecastData
                  (fst (step now (Tick RefreshForecastData) w)))
   = S (List.length (inFlight RefreshForecastData w))) /\
  (shouldUpdateCandleData (lastCandleFetchDate (closure w))
     (candleData (closure w)) now = true ->
   List.length (snd (step now (Tick CheckAndUpdateCandleData) w)) = 1 /\
   List.length (inFlight CheckAndUpdateCandleData
                  (fst (step now (Tick CheckAndUpdateCandleData) w)))
   = S (List.length (inFlight CheckAndUpdateCandleData w))).
Proof.
  intro coin. split; [|split; [|split]].
  - intro t. destruct (tick_invoke now t w) as (p & Hp & Hc & _).
    exists p. split; assumption.
  - intro Hcoin. apply String.eqb_neq in Hcoin. unfold step.
    assert (E : snd (run now (body RefreshAllData (closure w)) (store w))
                = ApiCrypto coin :: ApiCrypto coin :: map ApiCrypto Fanout.coinIds).
    { unfold body, refreshAllData, fetchMinIOData. fold coin. rewrite Hcoin.
      vm_compute. reflexivity. }
    split; [|split].
    + rewrite invoke_eq. exact E.
    + rewrite invoke_eq. cbn [snd]. rewrite E. reflexivity.
    + apply inFlight_invoke.
      unfold body, refreshAllData, fetchMinIOData. fold coin. rewrite Hcoin.
      vm_compute. reflexivity.
  - unfold step. split.
    + rewrite invoke_eq. vm_compute. reflexivity.
    + apply inFlight_invoke. vm_compute. reflexivity.
  - intro Hstale. unfold step.
    assert (E : forall s,
              run now (body CheckAndUpdateCandleData (closure w)) s
              = run now (fetchCandleData (closure w))
                  (print LOG "Daily candle data refresh needed" s)).
    { intro s. unfold body, checkAndUpdateCandleData. cbn [run].
      rewrite Hstale. reflexivity. }
    split.
    + rewrite invoke_eq. cbn [snd]. rewrite E.
      unfold fetchCandleData. cbn [run].
      destruct (shouldUpdate _ now); reflexivity.
    + apply inFlight_invoke. rewrite E.
      unfold fetchCandleData. cbn [run].
      destruct (shouldUpdate _ now); reflexivity.
Qed.

Lemma tick_always_invokes_witness :
  List.length (inFlight RefreshAllData (fst (mount nov2))) = 1 /\
  List.length (snd (step nov2_0931 (Tick RefreshAllData) (fst (mount nov2)))) = 52 /\
  List.length (inFlight RefreshAllData
                 (fst (step nov2_0931 (Tick RefreshAllData) (fst (mount nov2)))))
  = S (List.length (inFlight RefreshAllData (fst (mount nov2)))).
Proof.
  destruct (tick_always_invokes nov2_0931 (fst (mount nov2))) as (_ & H & _).
  destruct H as (_ & H1 & H2); [discriminate|].
  split; [reflexivity|]. split; assumption.
Defined.

(** C5 fails as stated: one minute after the first render the price
    refresh started then is still in flight, and the tick does not skip:
    it sends 52 more requests and leaves two invocations of the task in
    flight together. *)
Lemma busy_tick_not_skipped :
  let w := fst (mount nov2) in
  let w' := fst (step nov2_0931 (Tick RefreshAllData) w) in
  let sent := snd (step nov2_0931 (Tick RefreshAllData) w) in
  List.length (inFlight RefreshAllData w) = 1 /\
  List.length sent = 52 /\
  List.length (inFlight RefreshAllData w') = 2 /\
  ~ (inFlight RefreshAllData w <> [] ->
     sent = [] /\
     List.length (inFlight RefreshAllData w') = List.length (inFlight RefreshAllData w)).
Proof.
  intros w w' sent.
  assert (H1 : List.length (inFlight RefreshAllData w) = 1) by (vm_compute; reflexivity).
  assert (H2 : List.length sent = 52) by (vm_compute; reflexivity).
  assert (H3 : List.length (inFlight RefreshAllData w') = 2) by (vm_compute; reflexivity).
  repeat split; try assumption.
  intro H. destruct H as [_ H].
  - intro E. rewrite E in H1. discriminate.
  - rewrite H1, H3 in H. discriminate.
Qed.



(** C7, as amended.  Selecting another coin makes it the selected one and
    starts its refreshes, but cancels no outstanding fetch: every
    invocation in flight stays in the pool as it was, a settlement that
    arrives afterwards is delivered to it whatever coin is selected, and
    when the request for the indicators of the old coin settles with data,
    the data is written to [candleData] and the day to
    [lastCandleFetchDate] while the new coin is the selected one, and the
    request for the signals of the old coin goes out. *)
Theorem switch_cancels_no_fetch (now later : Date) (w : World) (coin : string)
    (i : nat) (t : Task) (p : Proc unit) :
  coin <> selectedCoin (store w) ->
  nth_error (pool w) i = Some (t, p) ->
  let w1 := fst (step now (SelectCoin coin) w) in
  selectedCoin (store w1) = coin /\
  nth_error (pool w1) i = Some (t, p) /\
  (forall path reply p' s sent,
     deliver later path reply p (store w1) = Some (p', s, sent) ->
     step later (Settle i path reply) w1
     = ({| store := s; closure := closure w1;
           pool := update i (t, p') (pool w1) |}, sent)) /\
  (forall t0 t1 env s0 data,
     p = awaitingIndicators t0 t1 env s0 ->
     awaited p = [ApiCandleChart (selectedCoin env) "indicators"] /\
     exists p' s,
       deliver later [] (Http true (CandleJson true (Some data))) p (store w1)
       = Some (p', s, [ApiCandleChart (selectedCoin env) "signals"]) /\
       candleData s = Some data /\
       lastCandleFetchDate s = toDateString later /\
       selectedCoin s = coin).
Proof.
  intros Hcoin Hp w1.
  destruct (select_keeps_pool now w Hcoin) as (Hsel & a & b & c & Hpool).
  fold w1 in Hsel, Hpool.
  assert (Hi : nth_error (pool w1) i = Some (t, p)).
  { rewrite Hpool, nth_error_app1; [exact Hp|].
    apply nth_error_Some. congruence. }
  split; [exact Hsel|]. split; [exact Hi|]. split.
  - intros path reply p' s sent Hd.
    apply (@settle_deliver later i path reply w1 t p p' s sent Hi Hd).
  - intros t0 t1 env s0 data ->.
    unfold awaitingIndicators, fetchCandleData. cbn [run].
    destruct (shouldUpdate (candleData env) t0).
    + cbn. split; [reflexivity|]. do 2 eexists.
      split; [reflexivity|]. repeat split. exact Hsel.
    + cbn. split; [reflexivity|]. do 2 eexists.
      split; [reflexivity|]. repeat split. exact Hsel.
Qed.

Lemma switch_cancels_no_fetch_witness :
  let w :=
    fst (step nov2_093005 (Settle 2 [] (Http true (UpdateJson true)))
           (fst (mount nov2))) in
  let w1 := fst (step nov2_093010 (SelectCoin "ethereum") w) in
  selectedCoin (store w1) = "ethereum"%string /\
  option_map (fun tp => awaited (snd tp)) (nth_error (pool w1) 2)
  = Some [ApiCandleChart "bitcoin" "indicators"].
Proof.
  intros w w1.
  assert (Hp : nth_error (pool w) 2
               = Some (CheckAndUpdateCandleData,
                       awaitingIndicators nov2 nov2_093005 initial initial))
    by reflexivity.
  destruct (@switch_cancels_no_fetch nov2_093010 nov2_093020 w "ethereum" 2
              _ _ ltac:(discriminate) Hp) as (H1 & H2 & _ & H4).
  split; [exact H1|].
  fold w1 in H2. rewrite H2. cbn [option_map snd].
  destruct (H4 nov2 nov2_093005 initial initial (candlesOf nov2) eq_refl)
    as (Ha & _).
  rewrite Ha. reflexivity.
Defined.

(** C7 fails as stated: the request for the indicators of bitcoin is out
    when ethereum is selected; its result arrives ten seconds later and is
    written into the store although ethereum is the selected coin. *)
Lemma late_result_written :
  let w :=
    fst (step nov2_093005 (Settle 2 [] (Http true (UpdateJson true)))
           (fst (mount nov2))) in
  let w1 := fst (step nov2_093010 (SelectCoin "ethereum") w) in
  let w2 :=
    fst (step nov2_093020
           (Settle 2 [] (Http true (CandleJson true (Some (candlesOf nov2)))))
           w1) in
  option_map (fun tp => awaited (snd tp)) (nth_error (pool w) 2)
  = Some [ApiCandleChart "bitcoin" "indicators"] /\
  (selectedCoin (store w1) = "ethereum"%string /\
   candleData (store w1) = None /\
   lastCandleFetchDate (store w1) = ""%string) /\
  (selectedCoin (store w2) = "ethereum"%string /\
   candleData (store w2) = Some (candlesOf nov2) /\
   lastCandleFetchDate (store w2) = "Mon Nov 02 2026"%string) /\
  feeds (store w2) <> feeds (store w1).
Proof.
  vm_compute. repeat split. discriminate.
Qed.

End SchedulerClaims.

(* ================================================================= *)
(** ** More on the recommendation engine *)

Section EngineMore.

Import Engine Votes Examples.
Local Open Scope Q_scope.

(** X1.  Whatever the overall score, short of [NaN]: a BUY or a SELL
    carries a confidence between 70 and 95, a NEUTRAL one from 0 to below
    40; so the confidence shown is never strictly between 40 and 70. *)
Theorem decide_confidence_bands (overall : num) :
  overall <> NaN ->
  match decide overall with
  | (NEUTRAL, c) =>
      (exists q, c = Fin q /\ 0 <= q < 40) /\ between 0 40 (round c) = true
  | (_, c) => between 70 95 c = true /\ between 70 95 (round c) = true
  end.
Proof.
  intro Hn. destruct overall as [o| | |]; try congruence; try (split; reflexivity).
  destruct (decide_bands o) as (B & S & N).
  destruct (Qlt_le_dec o 70) as [H70|H70].
  - destruct (Qlt_le_dec 30 o) as [H30|H30].
    + rewrite N by (split; assumption).
      assert (Hq : 0 <= Qabs (50 - o) * 2 < 40).
      { destruct (Qlt_le_dec o 50) as [H50|H50].
        - rewrite Qabs_pos by lra. lra.
        - rewrite Qabs_neg by lra. lra. }
      split.
      * eexists. split; [reflexivity|exact Hq].
      * apply (round_between 0 40). apply between_Fin.
        change (inject_Z 0) with 0. change (inject_Z 40) with 40. lra.
    + rewrite S by exact H30.
      assert (Hc : between 70 95 (Num.min (Fin (100 - o)) 95) = true).
      { destruct (Qlt_le_dec 95 (100 - o)) as [H|H].
        - rewrite min_Fin_gt by exact H. reflexivity.
        - rewrite min_Fin_le by exact H. apply between_Fin. lra. }
      split; [exact Hc|]. apply (round_between 70 95). exact Hc.
  - rewrite B by exact H70.
    assert (Hc : between 70 95 (Num.min (Fin o) 95) = true).
    { destruct (Qlt_le_dec 95 o) as [H|H].
      - rewrite min_Fin_gt by exact H. reflexivity.
      - rewrite min_Fin_le by exact H. apply between_Fin. lra. }
    split; [exact Hc|]. apply (round_between 70 95). exact Hc.
Qed.

Lemma decide_confidence_bands_witness :
  between 70 95 (snd (decide (overallScore 50 100 85))) = true.
Proof.
  pose proof (@decide_confidence_bands (overallScore 50 100 85)
                ltac:(discriminate)) as H.
  change (decide (overallScore 50 100 85))
    with (BUY, Num.min (overallScore 50 100 85) 95) in H.
  exact (proj1 H).
Defined.

Lemma vote_abstains (s : string) (counts : nat * nat) :
  abstains s -> vote s counts = counts.
Proof.
  intros [Hb Hs]. destruct counts as [b r]. unfold vote.
  apply String.eqb_neq in Hb, Hs. rewrite Hb, Hs. reflexivity.
Qed.

(** X2.  When no source has data to score (no news or an empty total; no
    signals or four votes that are neither BUY nor SELL; no forecast, no
    prediction within the day or no coin data), the recommendation is
    NEUTRAL with confidence 0 and the three sub-scores at 50. *)
Theorem no_data_is_neutral
    (newsAnalysisData : option NewsData)
    (tradingSignals : option TradingSignals)
    (forecastData : option ForecastData) (cryptoData : option CryptoData) :
  noNews newsAnalysisData -> noVotes tradingSignals ->
  noForecast forecastData cryptoData ->
  let r := calculateRecommendation newsAnalysisData tradingSignals
             forecastData cryptoData in
  action r = NEUTRAL /\ confidence r = Fin 0 /\
  breakdown r = {| news := Fin 50; technical := Fin 50; forecast := Fin 50 |} /\
  List.length (reasoning r) = 3%nat.
Proof.
  intros Hn Hv Hf r.
  assert (En : exists m, newsSignal newsAnalysisData = (Fin 50, [m])).
  { destruct newsAnalysisData as [d|]; [|eexists; reflexivity].
    rewrite (newsSignal_default d (Hn d eq_refl)). eexists. reflexivity. }
  assert (Et : exists m, technicalSignal tradingSignals = (Fin 50, [m])).
  { destruct tradingSignals as [[[s|]]|]; try (eexists; reflexivity).
    destruct (Hv s eq_refl) as (H1 & H2 & H3 & H4).
    unfold technicalSignal, countVotes.
    rewrite !vote_abstains by assumption. eexists. reflexivity. }
  assert (Ef : exists m, forecastSignal forecastData cryptoData = (Fin 50, [m])).
  { unfold forecastSignal.
    destruct forecastData as [[e [ps|]]|]; try (eexists; reflexivity).
    destruct cryptoData as [c|]; [|eexists; reflexivity].
    destruct Hf as [Hf|Hf]; [|discriminate].
    unfold shortTermPrediction in Hf. rewrite Hf. eexists. reflexivity. }
  destruct En as (mn & En), Et as (mt & Et), Ef as (mf & Ef).
  unfold r, calculateRecommendation. rewrite En, Et, Ef.
  repeat split.
Qed.

Lemma no_data_is_neutral_witness :
  action (calculateRecommendation
            (Some {| total := 0;
                     summary := {| positive_count := 0; negative_count := 0;
                                   neutral_count := 0 |} |})
            (Some {| signals := Some {| rsi_signal := "HOLD"; macd_signal := "HOLD";
                                        moving_average_signal := "NEUTRAL";
                                        bollinger_signal := "" |} |})
            (Some (forecastOf 110)) None) = NEUTRAL.
Proof.
  refine (proj1 (@no_data_is_neutral _ _ _ _ _ _ _)).
  - intros d E. injection E as <-. discriminate.
  - intros s E. injection E as <-. repeat split; discriminate.
  - right. reflexivity.
Defined.





Lemma forecastSignal_score (forecastData : option ForecastData)
    (p : Prediction) (c : CryptoData) :
  shortTermPrediction forecastData = Some p ->
  ~ current_price c == 0 ->
  fst (forecastSignal forecastData (Some c))
  = Fin (forecastScoreOf (changePercentOf p c)).
Proof.
  intros Hp Hc. unfold forecastSignal, shortTermPrediction in *.
  destruct forecastData as [[e [ps|]]|]; try discriminate.
  rewrite Hp. unfold sub. cbn [neg add]. rewrite div_Fin by exact Hc.
  cbn [mul]. fold (changePercentOf p c).
  unfold forecastScoreOf, gt, Num.min, Num.max. cbn [lt le].
  destruct (Qlt_bool 5 (changePercentOf p c)).
  - destruct (Qle_bool (changePercentOf p c) 25); reflexivity.
  - destruct (Qlt_bool (changePercentOf p c) (-5)); [|reflexivity].
    destruct (Qle_bool (changePercentOf p c) (-25)); reflexivity.
Qed.

Lemma forecastScoreOf_monotone (a b : Q) :
  a <= b -> forecastScoreOf a <= forecastScoreOf b.
Proof.
  intro H. unfold forecastScoreOf.
  destruct (Qlt_bool 5 a) eqn:A1; destruct (Qlt_bool 5 b) eqn:B1;
    destruct (Qlt_bool a (-5)) eqn:A2; destruct (Qlt_bool b (-5)) eqn:B2;
    destruct (Qle_bool a 25) eqn:A3; destruct (Qle_bool b 25) eqn:B3;
    destruct (Qle_bool a (-25)) eqn:A4; destruct (Qle_bool b (-25)) eqn:B4;
    repeat match goal with
      | H : Qlt_bool _ _ = true |- _ => apply Qlt_bool_iff in H
      | H : Qlt_bool _ _ = false |- _ => apply Qlt_bool_false in H
      | H : Qle_bool _ _ = true |- _ => apply Qle_bool_iff in H
      | H : Qle_bool _ _ = false |- _ => apply Qle_bool_false in H
      end; lra.
Qed.

(** X4.  For a positive current price the forecast score never falls when
    the predicted price rises; a predicted rise of 25 percent or more gives
    the score 100 and a predicted fall of 25 percent or more the score 0. *)
Theorem forecast_score_monotone
    (fd1 fd2 : option ForecastData) (p1 p2 : Prediction) (c : CryptoData) :
  shortTermPrediction fd1 = Some p1 ->
  shortTermPrediction fd2 = Some p2 ->
  0 < current_price c ->
  predicted_price p1 <= predicted_price p2 ->
  le (fst (forecastSignal fd1 (Some c))) (fst (forecastSignal fd2 (Some c))) = true /\
  (1.25 * current_price c <= predicted_price p2 ->
   eqn (fst (forecastSignal fd2 (Some c))) (Fin 100)) /\
  (predicted_price p1 <= 0.75 * current_price c ->
   eqn (fst (forecastSignal fd1 (Some c))) (Fin 0)).
Proof.
  intros H1 H2 Hc Hle.
  assert (Hnz : ~ current_price c == 0) by lra.
  rewrite (@forecastSignal_score fd1 p1 c H1 Hnz),
    (@forecastSignal_score fd2 p2 c H2 Hnz).
  assert (Hdiv : forall x y, x <= y ->
            (x + - current_price c) / current_price c * 100
            <= (y + - current_price c) / current_price c * 100).
  { intros x y Hxy.
    apply Qmult_le_compat_r; [|lra].
    unfold Qdiv. apply Qmult_le_compat_r; [lra|].
    apply Qlt_le_weak, Qinv_lt_0_compat. exact Hc. }
  assert (E : forall k, (k * current_price c + - current_price c) / current_price c * 100
                        == (k - 1) * 100).
  { intro k. field. exact Hnz. }
  split; [|split].
  - cbn [le]. apply Qle_bool_iff. apply forecastScoreOf_monotone.
    unfold changePercentOf. apply Hdiv. exact Hle.
  - intro Hup. cbn [eqn].
    assert (Hcp : 25 <= changePercentOf p2 c).
    { unfold changePercentOf. pose proof (Hdiv _ _ Hup) as Hd.
      rewrite E in Hd. lra. }
    unfold forecastScoreOf.
    assert (A : Qlt_bool 5 (changePercentOf p2 c) = true) by (apply Qlt_bool_iff; lra).
    rewrite A. destruct (Qle_bool (changePercentOf p2 c) 25) eqn:B; [|lra].
    apply Qle_bool_iff in B. lra.
  - intro Hdown. cbn [eqn].
    assert (Hcp : changePercentOf p1 c <= -25).
    { unfold changePercentOf. pose proof (Hdiv _ _ Hdown) as Hd.
      rewrite E in Hd. lra. }
    unfold forecastScoreOf.
    assert (A : Qlt_bool 5 (changePercentOf p1 c) = false) by (apply Qlt_bool_false; lra).
    assert (B : Qlt_bool (changePercentOf p1 c) (-5) = true) by (apply Qlt_bool_iff; lra).
    assert (C : Qle_bool (changePercentOf p1 c) (-25) = true) by (apply Qle_bool_iff; lra).
    rewrite A, B, C. lra.
Qed.

Lemma forecast_score_monotone_witness :
  le (fst (forecastSignal (Some (forecastOf 104)) (Some (coinAt 100))))
     (fst (forecastSignal (Some (forecastOf 106)) (Some (coinAt 100)))) = true.
Proof.
  refine (proj1 (@forecast_score_monotone
                   (Some (forecastOf 104)) (Some (forecastOf 106))
                   _ _ (coinAt 100) eq_refl eq_refl _ _)).
  - reflexivity.
  - discriminate.
Defined.

(** X5.  On a news feed with a positive total whose positive and negative
    counts lie between 0 and the total, the news score falls into one of
    three separate bands: above 90 up to 100 (more than 60 percent
    positive), from 0 to below 10 (more than 60 percent negative), or from
    28 to 52 (otherwise). *)
Theorem news_score_bands (d : NewsData) :
  0 < total d ->
  countsWithinTotal (Some d) ->
  exists q, fst (newsSignal (Some d)) = Fin q /\
    (90 < q <= 100 \/ 0 <= q < 10 \/ 28 <= q <= 52).
Proof.
  intros Ht Hv. destruct (Hv d eq_refl) as [Hp Hn].
  pose proof (ratio_unit Ht Hp) as Hpr.
  pose proof (ratio_unit Ht Hn) as Hnr.
  destruct (newsSignal_rules d Ht) as (R1 & R2 & R3).
  destruct (Qlt_le_dec 0.6 (positive_count (summary d) / total d)) as [H1|H1].
  - rewrite (R1 H1). eexists. split; [reflexivity|]. left. lra.
  - destruct (Qlt_le_dec 0.6 (negative_count (summary d) / total d)) as [H2|H2].
    + rewrite R2 by lra. eexists. split; [reflexivity|]. right. left. lra.
    + rewrite R3 by lra. eexists. split; [reflexivity|]. right. right. lra.
Qed.

Lemma news_score_bands_witness :
  exists q, fst (newsSignal (Some news_8_1_10)) = Fin q /\
    (90 < q <= 100 \/ 0 <= q < 10 \/ 28 <= q <= 52).
Proof.
  apply news_score_bands.
  - reflexivity.
  - intros d E. injection E as <-. simpl. split; split; discriminate.
Defined.

End EngineMore.

(* ================================================================= *)
(** ** The countdowns *)

Section CountdownFacts.

Import Countdown.
Local Open Scope Z_scope.

Variable base : Z.
Hypothesis base_pos : 1 <= base.

Let tick (prev : Z) : Z := if prev <=? 1 then base else prev - 1.

Lemma tick_down (k : nat) (c : Z) :
  Z.of_nat k < c -> Nat.iter k tick c = c - Z.of_nat k.
Proof.
  induction k as [|k IH]; intro H.
  - simpl. lia.
  - rewrite Nat.iter_succ, IH by lia. unfold tick.
    destruct (Z.leb_spec (c - Z.of_nat k) 1); lia.
Qed.

Lemma tick_period (c : Z) :
  1 <= c <= base -> Nat.iter (Z.to_nat base) tick c = c.
Proof.
  intro H.
  replace (Z.to_nat base)
    with (Z.to_nat (base - c) + (1 + Z.to_nat (c - 1)))%nat by lia.
  rewrite Nat.iter_add, Nat.iter_add.
  rewrite (@tick_down (Z.to_nat (c - 1)) c) by lia.
  replace (c - Z.of_nat (Z.to_nat (c - 1))) with 1 by lia.
  change (Nat.iter 1 tick 1) with base.
  rewrite (@tick_down (Z.to_nat (base - c)) base) by lia. lia.
Qed.

End CountdownFacts.

Section CountdownClaims.

Import Countdown.
Local Open Scope Z_scope.

(** X6.  Each countdown stays within 1 and its base (60 seconds for the
    price, 300 for the forecast), never shows 0 after a tick whatever value
    it had, and returns to its value after exactly as many ticks as its
    base. *)
Theorem countdowns_cycle (c : Z) :
  (0 < priceCountdownTick c /\ 0 < forecastCountdownTick c) /\
  (1 <= c <= 60 ->
   1 <= priceCountdownTick c <= 60 /\
   Nat.iter 60 priceCountdownTick c = c) /\
  (1 <= c <= 300 ->
   1 <= forecastCountdownTick c <= 300 /\
   Nat.iter 300 forecastCountdownTick c = c).
Proof.
  split; [|split].
  - unfold priceCountdownTick, forecastCountdownTick.
    destruct (Z.leb_spec c 1); lia.
  - intro H. split.
    + unfold priceCountdownTick. destruct (Z.leb_spec c 1); lia.
    + apply (@tick_period 60 ltac:(lia) c H).
  - intro H. split.
    + unfold forecastCountdownTick. destruct (Z.leb_spec c 1); lia.
    + apply (@tick_period 300 ltac:(lia) c H).
Qed.

Lemma countdowns_cycle_witness :
  Nat.iter 60 priceCountdownTick 17 = 17 /\
  Nat.iter 300 forecastCountdownTick 300 = 300.
Proof.
  destruct (countdowns_cycle 17) as (_ & H & _).
  destruct (countdowns_cycle 300) as (_ & _ & H').
  split; [apply H|apply H']; lia.
Defined.

End CountdownClaims.

(* ================================================================= *)
(** ** More on the fetchers *)

Section DashboardMore.

Import Store Async Dashboard Scheduler.
Local Open Scope list_scope.
Local Open Scope nat_scope.

Lemma last_row (rows : list Minio.Row) (latest : Minio.Row) :
  nth_error (rows ++ [latest]) (List.length (rows ++ [latest]) - 1) = Some latest.
Proof.
  rewrite length_app. cbn [List.length].
  replace (List.length rows + 1 - 1) with (List.length rows) by lia.
  apply nth_error_snoc.
Qed.

(** X7.  The coin data of the page against the route [/api/crypto]: the
    route counts the rows it returns; when its read of MinIO fails it
    answers 500, and [fetchMinIOData] then does nothing at all, without the
    fallback to the coin API that a rejected request or a store without rows
    for the coin triggers, and the universe gets no entry for the coin;
    when rows come back, [cryptoData] is made from the last one. *)
Theorem coin_data_through_route
    (now later served : Date) (env s : Store) (initialised collecting : bool)
    (readCoin : string -> CryptoRoute.MinioRead) (readAll : CryptoRoute.MinioRead) :
  selectedCoin env <> ""%string ->
  let coin := selectedCoin env in
  let response :=
    CryptoRoute.GET served initialised (Some coin) readCoin readAll collecting in
  let settled :=
    runThenSettle now later (CryptoRoute.asReply response) (fetchMinIOData env) s in
  CryptoRoute.count response = Z.of_nat (List.length (CryptoRoute.data response)) /\
  (initialised = false \/ readCoin coin = CryptoRoute.ReadThrows ->
   CryptoRoute.status response = 500%Z /\ CryptoRoute.data response = [] /\
   settled = Some (Ret tt, s, []) /\
   Fanout.treemapEntry (responseOf (CryptoRoute.asReply response)) = None) /\
  (initialised = true -> readCoin coin = CryptoRoute.ReadRows [] ->
   exists p s',
     settled = Some (p, s', [LibFetchCoinData coin]) /\
     feeds s' = feeds s /\ console s' = console s) /\
  (forall rows latest,
     initialised = true -> readCoin coin = CryptoRoute.ReadRows (rows ++ [latest]) ->
     exists s',
       settled = Some (Ret tt, s', []) /\
       cryptoData s' = Some (ofRow latest) /\
       lastUpdate s' = toLocaleTimeString later) /\
  (exists p s',
     runThenSettle now later Rejected (fetchMinIOData env) s
     = Some (p, s', [LibFetchCoinData coin]) /\
     feeds s' = feeds s /\
     In (ERROR, "Error fetching MinIO data:"%string) (console s')).
Proof.
  intros Hcoin coin response settled. subst coin.
  assert (Hc : exists c rest, selectedCoin env = String c rest).
  { destruct (selectedCoin env) as [|c rest] eqn:E; [contradiction|]. eauto. }
  destruct Hc as (c & rest & Ec).
  assert (Hne : String.eqb (selectedCoin env) "" = false)
    by (apply String.eqb_neq; exact Hcoin).
  assert (Hfail : initialised = false \/ readCoin (selectedCoin env) = CryptoRoute.ReadThrows ->
                  response = CryptoRoute.failure).
  { intros [->|H]; [reflexivity|]. unfold response, CryptoRoute.GET.
    rewrite Ec in H |- *. rewrite H. destruct initialised; reflexivity. }
  assert (Hrows : forall rows, initialised = true ->
            readCoin (selectedCoin env) = CryptoRoute.ReadRows rows ->
            CryptoRoute.asReply response = Http true (CryptoJson true (Some rows))).
  { intros rows -> H. unfold response, CryptoRoute.GET.
    rewrite Ec in H |- *. rewrite H. reflexivity. }
  split; [|split; [|split; [|split]]].
  - unfold response, CryptoRoute.GET.
    destruct initialised; [|reflexivity]. rewrite Ec.
    destruct (readCoin (String c rest)); reflexivity.
  - intro H. unfold settled. rewrite (Hfail H).
    repeat split; try reflexivity.
    unfold runThenSettle, fetchMinIOData. rewrite Hne. reflexivity.
  - intros Hi Hr. unfold settled. rewrite (Hrows [] Hi Hr).
    unfold runThenSettle, fetchMinIOData, fetchCurrentCoinData.
    rewrite !Hne. cbn.
    do 2 eexists. split; [reflexivity|]. split; reflexivity.
  - intros rows latest Hi Hr. unfold settled. rewrite (Hrows _ Hi Hr).
    unfold runThenSettle, fetchMinIOData. rewrite Hne.
    cbn [run deliver cryptoFields]. rewrite last_row.
    eexists. split; [reflexivity|]. split; reflexivity.
  - unfold runThenSettle, fetchMinIOData, fetchCurrentCoinData.
    rewrite !Hne. cbn -[In app].
    do 2 eexists. split; [reflexivity|]. split; [reflexivity|].
    cbn -[In app]. apply in_or_app. right. left. reflexivity.
Qed.

Lemma coin_data_through_route_witness :
  runThenSettle Examples.nov2 Examples.nov2_093005
    (CryptoRoute.asReply
       (CryptoRoute.GET Examples.nov2 true (Some "bitcoin"%string)
          (fun _ => CryptoRoute.ReadThrows) CryptoRoute.ReadThrows true))
    (fetchMinIOData initial) initial
  = Some (Ret tt, initial, []).
Proof.
  destruct (@coin_data_through_route Examples.nov2 Examples.nov2_093005
              Examples.nov2 initial initial true true
              (fun _ => CryptoRoute.ReadThrows) CryptoRoute.ReadThrows
              ltac:(discriminate)) as (_ & H & _).
  destruct H as (_ & _ & H & _); [right; reflexivity|]. exact H.
Defined.

(** X8.  A click on a coin of the selector calls [fetchMinIOData] of the
    render that drew the list: its request is for the coin selected before
    the click and goes out first; the clicked coin becomes the selected
    one; and whenever the rows of the old coin arrive, their last row is
    written to [cryptoData] whatever coin is selected by then. *)
Theorem click_fetches_previous_coin (now later : Date) (w : World)
    (coin : string) (rows : list Minio.Row) (latest : Minio.Row) :
  selectedCoin (store w) <> ""%string ->
  coin <> selectedCoin (store w) ->
  let previous := selectedCoin (store w) in
  let w' := fst (fst (Dropdown.onCoinClick now coin w)) in
  let p := snd (fst (Dropdown.onCoinClick now coin w)) in
  let sent := snd (Dropdown.onCoinClick now coin w) in
  hd_error sent = Some (ApiCrypto previous) /\
  awaited p = [ApiCrypto previous] /\
  selectedCoin (store w') = coin /\
  forall s, exists s',
    deliver later [] (Http true (CryptoJson true (Some (rows ++ [latest])))) p s
    = Some (Ret tt, s', []) /\
    cryptoData s' = Some (ofRow latest) /\
    selectedCoin s' = selectedCoin s.
Proof.
  intros Hprev Hcoin previous w' p sent.
  assert (Hne : String.eqb (selectedCoin (store w)) "" = false)
    by (apply String.eqb_neq; exact Hprev).
  assert (Erun : run now (fetchMinIOData (store w)) (store w)
                 = (fst (fst (run now (fetchMinIOData (store w)) (store w))),
                    store w, [ApiCrypto previous])).
  { unfold fetchMinIOData. rewrite Hne. reflexivity. }
  assert (Ew : {| store := store w; closure := closure w; pool := pool w |} = w)
    by (destruct w; reflexivity).
  assert (Eclick : Dropdown.onCoinClick now coin w
                   = (fst (step now (SelectCoin coin) w),
                      fst (fst (run now (fetchMinIOData (store w)) (store w))),
                      [ApiCrypto previous] ++ snd (step now (SelectCoin coin) w))).
  { unfold Dropdown.onCoinClick. rewrite Erun, Ew.
    destruct (step now (SelectCoin coin) w). reflexivity. }
  subst w' p sent. rewrite Eclick. cbn [fst snd].
  split; [reflexivity|]. split.
  - unfold fetchMinIOData. rewrite Hne. reflexivity.
  - split; [apply (select_keeps_pool now w Hcoin)|].
    intro s. unfold fetchMinIOData. rewrite Hne.
    cbn [run fst deliver cryptoFields]. rewrite last_row.
    eexists. split; [reflexivity|]. split; reflexivity.
Qed.

Lemma click_fetches_previous_coin_witness :
  hd_error (snd (Dropdown.onCoinClick Examples.nov2_093010 "ethereum"
                   (fst (mount Examples.nov2))))
  = Some (ApiCrypto "bitcoin").
Proof.
  refine (proj1 (@click_fetches_previous_coin Examples.nov2_093010
                   Examples.nov2_093020 (fst (mount Examples.nov2)) "ethereum"
                   [] (Examples.row "bitcoin" 1 1 1) _ _)); discriminate.
Defined.

Lemma snd_select (now : Date) (coin : string) (w : World) :
  coin <> selectedCoin (store w) ->
  let env := setSelectedCoin coin (store w) in
  closure (fst (step now (SelectCoin coin) w)) = env /\
  snd (step now (SelectCoin coin) w)
  = snd (run now (body RefreshAllData env) (store w))
    ++ snd (run now (body RefreshForecastData env) (store w))
    ++ snd (run now (body CheckAndUpdateCandleData env) (store w)).
Proof.
  intros H env. apply String.eqb_neq in H.
  unfold step. rewrite H. unfold effects. rewrite !invoke_eq.
  cbn [fst snd store closure pool]. fold env.
  split; [reflexivity|].
  assert (Esent : forall t s s', snd (run now (body t env) s)
                                 = snd (run now (body t env) s')).
  { intros t s s'. destruct t; unfold body.
    - unfold refreshAllData, fetchMinIOData.
      destruct (String.eqb (selectedCoin env) ""); vm_compute; reflexivity.
    - vm_compute. reflexivity.
    - unfold checkAndUpdateCandleData. cbn [run].
      destruct (shouldUpdateCandleData _ _ now); [|reflexivity].
      unfold fetchCandleData. cbn [run].
      destruct (shouldUpdate _ now); reflexivity. }
  f_equal; [apply Esent|]. f_equal; apply Esent.
Qed.

(** X9.  The candle check runs on the state of the render in which the
    coin was selected.  When the candle data of the previous coin was
    fetched today, selecting another coin clears the candle data and sends
    no candle request for the new coin, and no candle check sends one for
    the rest of the day, whatever ticks and settlements come in between,
    as long as no other coin is selected. *)
Theorem switch_after_candles_of_today (now later : Date) (w w' : World)
    (coin : string) (c : CandleData) :
  coin <> ""%string ->
  coin <> selectedCoin (store w) ->
  candleData (store w) = Some c ->
  lastCandleFetchDate (store w) = toDateString now ->
  sameCalendarDay now later ->
  closure w' = closure (fst (step now (SelectCoin coin) w)) ->
  candleData (store (fst (step now (SelectCoin coin) w))) = None /\
  (forall r, In r (snd (step now (SelectCoin coin) w)) ->
     r = ApiCrypto coin \/ In r (map ApiCrypto Fanout.coinIds) \/
     r = ApiForecast coin "minio") /\
  snd (step later (Tick CheckAndUpdateCandleData) w') = [] /\
  (forall t, closure (fst (step later (Tick t) w')) = closure w') /\
  (forall i path reply,
     closure (fst (step later (Settle i path reply) w')) = closure w').
Proof.
  intros Hne Hcoin Hc Hd Hday Hw'.
  destruct (@snd_select now coin w Hcoin) as [Ecl Esent].
  set (env := setSelectedCoin coin (store w)) in *.
  assert (Hfresh : forall t, sameCalendarDay now t ->
            shouldUpdateCandleData (lastCandleFetchDate env) (candleData env) t
            = false).
  { intros t Ht. unfold env. cbn [lastCandleFetchDate candleData setSelectedCoin].
    rewrite Hc, Hd. unfold shouldUpdateCandleData.
    rewrite (sameCalendarDay_string Ht), String.eqb_refl. reflexivity. }
  assert (Hnow : sameCalendarDay now now) by (repeat split).
  assert (Hcheck : forall t s, sameCalendarDay now t ->
            snd (run t (body CheckAndUpdateCandleData env) s) = []).
  { intros t s Ht. unfold body, checkAndUpdateCandleData. cbn [run].
    rewrite (Hfresh t Ht). reflexivity. }
  split; [|split; [|split; [|split]]].
  - apply String.eqb_neq in Hcoin, Hne. unfold step. rewrite Hcoin.
    unfold effects. rewrite !invoke_eq. cbn [fst snd store closure pool].
    fold env. cbn [selectedCoin setSelectedCoin] in *.
    assert (Ekeep : forall t s, candleData (snd (fst (run now (body t env) s)))
                                = candleData s).
    { intros t s. destruct t; unfold body.
      - unfold refreshAllData, fetchMinIOData.
        destruct (String.eqb (selectedCoin env) ""); vm_compute; reflexivity.
      - vm_compute. reflexivity.
      - unfold checkAndUpdateCandleData. cbn [run].
        rewrite (Hfresh now Hnow). reflexivity. }
    rewrite !Ekeep. unfold env at 1. cbn [selectedCoin setSelectedCoin].
    rewrite Hne. reflexivity.
  - intros r Hr. rewrite Esent, (Hcheck now (store w) Hnow), app_nil_r in Hr.
    apply in_app_or in Hr. destruct Hr as [Hr|Hr].
    + unfold body, refreshAllData, fetchMinIOData in Hr.
      assert (E : String.eqb (selectedCoin env) "" = false)
        by (apply String.eqb_neq; exact Hne).
      rewrite E in Hr. cbn [run] in Hr.
      change (selectedCoin env) with coin in Hr.
      revert Hr. vm_compute. intuition.
    + revert Hr. vm_compute. intuition.
  - unfold step. rewrite invoke_eq. cbn [snd]. rewrite Hw', Ecl.
    apply (Hcheck later (store w') Hday).
  - intro t. destruct (tick_invoke later t w') as (_ & _ & H & _). exact H.
  - intros i path reply. apply settle_closure.
Qed.

Lemma switch_after_candles_of_today_witness :
  let loaded :=
    fst (steps [(Examples.nov2_093005, Settle 2 [] (Http true (UpdateJson true)));
                (Examples.nov2_093010,
                 Settle 2 [] (Http true (CandleJson true
                                           (Some (Examples.candlesOf Examples.nov2)))))]
           (fst (mount Examples.nov2))) in
  let switched := fst (step Examples.nov2_093020 (SelectCoin "ethereum") loaded) in
  candleData (store loaded) = Some (Examples.candlesOf Examples.nov2) /\
  candleData (store switched) = None /\
  snd (step Examples.nov2_0935 (Tick CheckAndUpdateCandleData) switched) = [].
Proof.
  intros loaded switched.
  assert (Hc : candleData (store loaded) = Some (Examples.candlesOf Examples.nov2))
    by reflexivity.
  assert (Hd : lastCandleFetchDate (store loaded)
               = toDateString Examples.nov2_093020) by reflexivity.
  assert (Hday : sameCalendarDay Examples.nov2_093020 Examples.nov2_0935)
    by (repeat split).
  assert (Hne : "ethereum"%string <> ""%string) by discriminate.
  assert (Hcoin : "ethereum"%string <> selectedCoin (store loaded))
    by (vm_compute; discriminate).
  destruct (@switch_after_candles_of_today Examples.nov2_093020
              Examples.nov2_0935 loaded switched "ethereum"
              (Examples.candlesOf Examples.nov2) Hne Hcoin Hc Hd Hday eq_refl)
    as (H1 & _ & H3 & _).
  split; [exact Hc|]. split; [exact H1|exact H3].
Defined.

(** Settles the request to generate a forecast with any answer. *)
Ltac generated :=
  let g := fresh "g" in
  intro g;
  try (eexists; split; reflexivity);
  destruct g as [|? ?|?|? ?|? ?|[|] [?d|]];
  try (eexists; split; reflexivity);
  cbn [deliver run usableForecast];
  match goal with
  | |- context [Engine.error ?d] => destruct (Engine.error d)
  end;
  eexists; split; reflexivity.

(** X10.  [fetchForecastData] asks MinIO first.  A usable forecast in the
    answer is stored and nothing else is sent.  Without one (the answer is
    an HTTP error, or its body has no usable forecast) exactly one request
    to generate a forecast follows, for the same coin, the stored forecast
    being untouched so far; an HTTP error on that request leaves the
    stored forecast as it was, while any body read from it replaces the
    stored forecast by the usable forecast of the body, which is null when
    there is none. *)
Theorem forecast_generated_only_as_fallback (now later last : Date)
    (env s : Store) :
  let coin := selectedCoin env in
  snd (run now (fetchForecastData env) s) = [ApiForecast coin "minio"] /\
  (forall result data, usableForecast result = Some data ->
     exists s',
       runThenSettle now later (Http true result) (fetchForecastData env) s
       = Some (Ret tt, s', []) /\
       forecastData s' = Some data) /\
  (forall ok result,
     ok = false \/ (result <> Malformed /\ usableForecast result = None) ->
     exists p s',
       runThenSettle now later (Http ok result) (fetchForecastData env) s
       = Some (p, s', [ApiForecast coin "generate"]) /\
       awaited p = [ApiForecast coin "generate"] /\
       forecastData s' = forecastData s /\
       (forall body, exists s'',
          deliver last [] (Http false body) p s' = Some (Ret tt, s'', []) /\
          forecastData s'' = forecastData s) /\
       (forall generateResult, exists s'',
          deliver last [] (Http true generateResult) p s'
          = Some (Ret tt, s'', []) /\
          forecastData s'' = usableForecast generateResult)).
Proof.
  intro coin. split; [reflexivity|]. split.
  - intros result data Hu. unfold runThenSettle, fetchForecastData.
    cbn [run deliver].
    destruct result as [|? ?|?|? ?|? ?|[|] [d|]]; try discriminate.
    cbn [usableForecast] in *. destruct (Engine.error d); [discriminate|].
    injection Hu as <-. eexists. split; reflexivity.
  - intros ok result Hr.
    unfold runThenSettle, fetchForecastData. cbn [run deliver].
    destruct Hr as [->|[Hm Hu]].
    + do 2 eexists. split; [reflexivity|]. split; [reflexivity|].
      split; [reflexivity|]. split; generated.
    + destruct ok.
      * destruct result as [|? ?|?|? ?|? ?|[|] [d|]]; try congruence;
          try (do 2 eexists; split; [reflexivity|]; split; [reflexivity|];
               split; [reflexivity|]; split; generated).
        cbn [usableForecast] in Hu. cbn [usableForecast].
        destruct (Engine.error d); [|discriminate].
        do 2 eexists. split; [reflexivity|]. split; [reflexivity|].
        split; [reflexivity|]. split; generated.
      * do 2 eexists. split; [reflexivity|]. split; [reflexivity|].
        split; [reflexivity|]. split; generated.
Qed.

Lemma forecast_generated_only_as_fallback_witness :
  exists s',
    runThenSettle Examples.nov2 Examples.nov2_093005
      (Http true (ForecastJson true (Some (Examples.forecastOf 110))))
      (fetchForecastData initial) initial
    = Some (Ret tt, s', []) /\
    forecastData s' = Some (Examples.forecastOf 110).
Proof.
  exact (proj1 (proj2 (@forecast_generated_only_as_fallback Examples.nov2
                         Examples.nov2_093005 Examples.nov2_093010
                         initial initial))
           (ForecastJson true (Some (Examples.forecastOf 110)))
           (Examples.forecastOf 110) eq_refl).
Defined.

(** X11.  [fetchCandleData] sends its requests one after the other, all
    for the coin of its render: the update only when the day-of-month
    check asks for it, then the indicators whatever the update answered,
    then the signals once candle data arrived.  The candle data and the
    date of the fetch are stored before the signals are requested; when
    that last request is rejected the candle data just stored is cleared
    while the date of the fetch stays, so that the daily check asks for a
    new fetch. *)
Theorem candle_requests_in_order (t0 t1 t2 t3 : Date) (env s : Store) :
  let coin := selectedCoin env in
  snd (run t0 (fetchCandleData env) s)
  = [ApiCandleChart coin
       (if shouldUpdate (candleData env) t0 then "update" else "indicators")] /\
  (shouldUpdate (candleData env) t0 = true ->
   forall ok success, exists p s',
     runThenSettle t0 t1 (Http ok (UpdateJson success)) (fetchCandleData env) s
     = Some (p, s', [ApiCandleChart coin "indicators"]) /\
     feeds s' = feeds s) /\
  awaited (awaitingIndicators t0 t1 env s) = [ApiCandleChart coin "indicators"] /\
  forall s1 ok data, exists p2 s2,
    deliver t2 [] (Http ok (CandleJson true (Some data)))
      (awaitingIndicators t0 t1 env s) s1
    = Some (p2, s2, [ApiCandleChart coin "signals"]) /\
    candleData s2 = Some data /\
    lastCandleFetchDate s2 = toDateString t2 /\
    tradingSignals s2 = tradingSignals s1 /\
    (forall ok' signals, exists s3,
       deliver t3 [] (Http ok' (SignalsJson true (Some signals))) p2 s2
       = Some (Ret tt, s3, []) /\
       candleData s3 = Some data /\ tradingSignals s3 = Some signals) /\
    (exists s3,
       deliver t3 [] Rejected p2 s2 = Some (Ret tt, s3, []) /\
       candleData s3 = None /\
       lastCandleFetchDate s3 = toDateString t2 /\
       tradingSignals s3 = tradingSignals s1 /\
       shouldUpdateCandleData (lastCandleFetchDate s3) (candleData s3) t3 = true).
Proof.
  intro coin. split; [|split; [|split]].
  - unfold fetchCandleData. cbn [run].
    destruct (shouldUpdate (candleData env) t0); reflexivity.
  - intros Hup ok success. unfold runThenSettle, fetchCandleData. cbn [run].
    rewrite Hup. destruct success; do 2 eexists; split; reflexivity.
  - unfold awaitingIndicators, fetchCandleData. cbn [run].
    destruct (shouldUpdate (candleData env) t0); reflexivity.
  - intros s1 ok data.
    unfold awaitingIndicators, fetchCandleData. cbn [run].
    destruct (shouldUpdate (candleData env) t0);
      (do 2 eexists; split; [reflexivity|]; split; [reflexivity|];
       split; [reflexivity|]; split; [reflexivity|]; split;
       [ intros ok' signals; eexists; split; [reflexivity|];
         split; reflexivity
       | eexists; split; [reflexivity|]; split; [reflexivity|];
         split; [reflexivity|]; split; [reflexivity|];
         apply Bool.orb_true_r ]).
Qed.

Lemma candle_requests_in_order_witness :
  exists p s',
    runThenSettle Examples.nov2 Examples.nov2_093005
      (Http true (UpdateJson false)) (fetchCandleData initial) initial
    = Some (p, s', [ApiCandleChart "bitcoin" "indicators"]) /\
    feeds s' = feeds initial.
Proof.
  exact (proj1 (proj2 (@candle_requests_in_order Examples.nov2
                         Examples.nov2_093005 Examples.nov2_093010
                         Examples.nov2_093020 initial initial))
           eq_refl true false).
Defined.

Lemma byTimestamp_before (a b : Minio.Row) :
  (byTimestamp a b <= 0)%Q <-> (Minio.timestamp a <= Minio.timestamp b)%Z.
Proof.
  unfold byTimestamp. change 0%Q with (inject_Z 0). rewrite <- Zle_Qle. lia.
Qed.

Lemma sorted_weaken (A : Type) (R R' : A -> A -> Prop) (l : list A) :
  (forall a b, R a b -> R' a b) -> StronglySorted R l -> StronglySorted R' l.
Proof.
  intros HR Hs. induction Hs as [|a l _ IH Ha]; constructor; [exact IH|].
  rewrite Forall_forall in *. intros b Hb. apply HR, Ha, Hb.
Qed.

Lemma sort_byTimestamp (data : list Minio.Row) :
  Permutation data (Fanout.sort byTimestamp data) /\
  StronglySorted (fun a b => (Minio.timestamp a <= Minio.timestamp b)%Z)
    (Fanout.sort byTimestamp data).
Proof.
  split; [apply sort_perm|].
  eapply sorted_weaken; [|apply sort_sorted].
  - intros a b H. apply byTimestamp_before. exact H.
  - intros a b. rewrite !byTimestamp_before. lia.
  - intros a b c. rewrite !byTimestamp_before. lia.
Qed.

(** X12.  A successful answer of [/api/crypto] with at least one row
    replaces the chart feed by the rows of the answer put in the order of
    their timestamps, none lost and none added, and touches no other
    feed; an answer with no row, an unsuccessful body and an HTTP error
    leave the store as it was, console included. *)
Theorem chart_rows_in_time_order (now later : Date) (env s : Store)
    (data : list Minio.Row) :
  (data <> [] ->
   exists s',
     runThenSettle now later (Http true (CryptoJson true (Some data)))
       (fetchRealTimeChartData env) s
     = Some (Ret tt, s', []) /\
     Permutation data (realTimeChartData s') /\
     StronglySorted (fun a b => (Minio.timestamp a <= Minio.timestamp b)%Z)
       (realTimeChartData s') /\
     (cryptoData s', treemapData s', forecastData s', candleData s',
      tradingSignals s', lastCandleFetchDate s')
     = (cryptoData s, treemapData s, forecastData s, candleData s,
        tradingSignals s, lastCandleFetchDate s)) /\
  (forall reply,
     reply = Http true (CryptoJson true (Some [])) \/
     (exists rows, reply = Http true (CryptoJson false rows)) \/
     (exists body, reply = Http false body) ->
     runThenSettle now later reply (fetchRealTimeChartData env) s
     = Some (Ret tt, s, [])).
Proof.
  split.
  - intro Hne. destruct (sort_byTimestamp data) as [Hp Hs].
    assert (Hlen : (0 <? List.length data)%nat = true).
    { destruct data; [congruence|reflexivity]. }
    assert (Hlen' : (0 <? List.length (Fanout.sort byTimestamp data))%nat = true).
    { rewrite <- (Permutation_length Hp). exact Hlen. }
    unfold runThenSettle, fetchRealTimeChartData.
    cbn [run deliver cryptoFields]. rewrite Hlen, Hlen'. cbn [run].
    eexists. split; [reflexivity|].
    cbn [realTimeChartData setRealTimeChartData print cryptoData treemapData
         forecastData candleData tradingSignals lastCandleFetchDate].
    split; [exact Hp|]. split; [exact Hs|reflexivity].
  - intros reply [->|[[rows ->]|[body ->]]]; reflexivity.
Qed.

Lemma chart_rows_in_time_order_witness :
  exists s',
    runThenSettle Examples.nov2 Examples.nov2_093005
      (Http true (CryptoJson true
                    (Some [Examples.row "bitcoin" 3 1 20;
                           Examples.row "bitcoin" 2 1 10])))
      (fetchRealTimeChartData initial) initial
    = Some (Ret tt, s', []) /\
    realTimeChartData s'
    = [Examples.row "bitcoin" 2 1 10; Examples.row "bitcoin" 3 1 20].
Proof.
  destruct (proj1 (@chart_rows_in_time_order Examples.nov2 Examples.nov2_093005
                     initial initial
                     [Examples.row "bitcoin" 3 1 20; Examples.row "bitcoin" 2 1 10])
              ltac:(discriminate)) as (s' & E & _).
  exists s'. split; [exact E|].
  vm_compute in E. injection E as <-. reflexivity.
Defined.

(** X13.  [fetchCurrentCoinData] with a coin selected sets the loading
    flag, asks [fetchCoinData] for the coin of its render and completes
    on any settlement with the flag cleared: coin data that arrived is
    stored and stamped, and nothing is stored when none arrived or the
    call was rejected, the rejection being logged. *)
Theorem coin_fallback_clears_loading (now later : Date) (env s : Store)
    (reply : Reply) :
  selectedCoin env <> ""%string ->
  let started := run now (fetchCurrentCoinData env) s in
  snd started = [LibFetchCoinData (selectedCoin env)] /\
  loading (snd (fst started)) = true /\
  exists s',
    runThenSettle now later reply (fetchCurrentCoinData env) s
    = Some (Ret tt, s', []) /\
    loading s' = false /\
    cryptoData s'
    = match reply with
      | CoinData (Some coinData) => Some coinData
      | _ => cryptoData s
      end /\
    Store.lastUpdate s'
    = match reply with
      | CoinData (Some _) => toLocaleTimeString later
      | _ => Store.lastUpdate s
      end /\
    (reply = Rejected ->
     In (ERROR, "Error fetching coin data:"%string) (console s')).
Proof.
  intros Hne started. subst started.
  apply String.eqb_neq in Hne.
  unfold runThenSettle, fetchCurrentCoinData. rewrite Hne.
  cbn [run fst snd]. split; [reflexivity|]. split; [reflexivity|].
  destruct reply as [|ok body|[coinData|]]; cbn [deliver run stamp];
    eexists; (split; [reflexivity|]); (split; [reflexivity|]);
    (split; [reflexivity|]); (split; [reflexivity|]); intro H;
    try discriminate.
  cbn [console setLoading print]. rewrite in_app_iff. right. left. reflexivity.
Qed.

Lemma coin_fallback_clears_loading_witness :
  snd (run Examples.nov2 (fetchCurrentCoinData initial) initial)
  = [LibFetchCoinData "bitcoin"].
Proof.
  refine (proj1 (@coin_fallback_clears_loading Examples.nov2
                   Examples.nov2_093005 initial initial Rejected _)).
  discriminate.
Defined.

End DashboardMore.

Section PriceChartFacts.

Import RealTimePriceChart.
Local Open Scope list_scope.
Local Open Scope Q_scope.

Lemma prices_plotted (realTimeData : list Minio.Row) :
  filter (fun price => truthy price && negb (isNaN price))
    (map (fun item => Fin (Minio.price_usd item)) realTimeData)
  = map Fin (plotted realTimeData).
Proof.
  unfold plotted. induction realTimeData as [|item l IH]; [reflexivity|].
  cbn [map filter truthy isNaN negb andb].
  rewrite Bool.andb_true_r, IH.
  destruct (Qeq_bool (Minio.price_usd item) 0); reflexivity.
Qed.

Lemma mathMin_Fin (qs : list Q) :
  qs <> [] ->
  exists m, mathMin (map Fin qs) = Fin m /\ In m qs /\
            forall x, In x qs -> m <= x.
Proof.
  induction qs as [|q qs IH]; [congruence|]. intros _.
  destruct qs as [|q' qs'].
  - exists q. split; [reflexivity|]. split; [left; reflexivity|].
    intros x [<-|[]]. apply Qle_refl.
  - destruct IH as (m & Em & Hin & Hle); [discriminate|].
    change (mathMin (map Fin (q :: q' :: qs')))
      with (Num.min (Fin q) (mathMin (map Fin (q' :: qs')))).
    rewrite Em. destruct (Qlt_le_dec m q) as [H|H].
    + exists m. rewrite (min_Fin_gt H). split; [reflexivity|].
      split; [right; exact Hin|]. intros x [<-|Hx].
      * apply Qlt_le_weak, H.
      * apply Hle, Hx.
    + exists q. rewrite (min_Fin_le H). split; [reflexivity|].
      split; [left; reflexivity|]. intros x [<-|Hx].
      * apply Qle_refl.
      * eapply Qle_trans; [exact H|apply Hle, Hx].
Qed.

Lemma mathMax_Fin (qs : list Q) :
  qs <> [] ->
  exists m, mathMax (map Fin qs) = Fin m /\ In m qs /\
            forall x, In x qs -> x <= m.
Proof.
  induction qs as [|q qs IH]; [congruence|]. intros _.
  destruct qs as [|q' qs'].
  - exists q. split; [reflexivity|]. split; [left; reflexivity|].
    intros x [<-|[]]. apply Qle_refl.
  - destruct IH as (m & Em & Hin & Hle); [discriminate|].
    change (mathMax (map Fin (q :: q' :: qs')))
      with (Num.max (Fin q) (mathMax (map Fin (q' :: qs')))).
    rewrite Em. destruct (Qlt_le_dec m q) as [H|H].
    + exists q. rewrite (max_Fin_gt H). split; [reflexivity|].
      split; [left; reflexivity|]. intros x [<-|Hx].
      * apply Qle_refl.
      * eapply Qle_trans; [apply Hle, Hx|apply Qlt_le_weak, H].
    + exists m. rewrite (max_Fin_le H). split; [reflexivity|].
      split; [right; exact Hin|]. intros x [<-|Hx].
      * exact H.
      * apply Hle, Hx.
Qed.

(** X14.  The vertical axis of the real-time chart.  Without a price
    that passes the filter the axis runs from 0 to 100 and the change is
    0.  With two prices or more, or with positive prices, the axis has
    finite ends that enclose every price that passed.  A lone negative
    price lies outside its axis, whose ends are then exchanged. *)
Theorem axis_encloses_prices (realTimeData : list Minio.Row) :
  let st := statistics realTimeData in
  let ps := plotted realTimeData in
  (ps = [] ->
   yAxisMin st = Fin 0 /\ yAxisMax st = Fin 100 /\ priceChange st = Fin 0) /\
  ((2 <= List.length ps)%nat \/ (forall q, In q ps -> 0 < q) ->
   exists lo hi,
     yAxisMin st = Fin lo /\ yAxisMax st = Fin hi /\
     forall q, In q ps -> lo <= q <= hi) /\
  (forall p, ps = [p] -> p < 0 ->
   exists lo hi,
     yAxisMin st = Fin lo /\ yAxisMax st = Fin hi /\ hi < p /\ p < lo).
Proof.
  intros st ps. subst st ps. unfold statistics.
  cbn [yAxisMin yAxisMax priceChange]. rewrite !prices_plotted.
  generalize (plotted realTimeData) as ps. intro ps.
  split; [|split].
  - intros ->. repeat split.
  - intro H. destruct ps as [|p [|q rest]].
    + exists 0, 100. repeat split; contradiction.
    + destruct H as [H|H]; [cbn in H; lia|].
      assert (Hp : 0 < p) by (apply H; left; reflexivity).
      do 2 eexists. split; [reflexivity|]. split; [reflexivity|].
      intros x [<-|[]]. lra.
    + destruct (@mathMin_Fin (p :: q :: rest)) as (m & Em & Hm & Hlo);
        [discriminate|].
      destruct (@mathMax_Fin (p :: q :: rest)) as (M & EM & HM & Hhi);
        [discriminate|].
      rewrite Em, EM, !length_map.
      cbn [List.length Nat.ltb Nat.leb Num.sub Num.add Num.neg Num.mul].
      do 2 eexists. split; [reflexivity|]. split; [reflexivity|].
      intros x Hx. pose proof (Hlo x Hx). pose proof (Hhi x Hx). lra.
  - intros p -> Hp. do 2 eexists. split; [reflexivity|]. split; [reflexivity|].
    lra.
Qed.

Lemma axis_encloses_prices_witness :
  exists lo hi,
    yAxisMin (statistics [Examples.row "bitcoin" 100 1 10;
                          Examples.row "bitcoin" 0 1 20;
                          Examples.row "bitcoin" 120 1 30]) = Fin lo /\
    yAxisMax (statistics [Examples.row "bitcoin" 100 1 10;
                          Examples.row "bitcoin" 0 1 20;
                          Examples.row "bitcoin" 120 1 30]) = Fin hi /\
    forall q, In q [100; 120] -> lo <= q <= hi.
Proof.
  refine (proj1 (proj2 (@axis_encloses_prices
                          [Examples.row "bitcoin" 100 1 10;
                           Examples.row "bitcoin" 0 1 20;
                           Examples.row "bitcoin" 120 1 30])) _).
  left. vm_compute. lia.
Defined.

End PriceChartFacts.

Section ForecastChartFacts.

Import PriceForecastChart.
Local Open Scope list_scope.

Variable clockLabel : string -> string.

(** A point of the historical part of the chart. *)
Let isHistorical (p : Point) : Prop :=
  type p = historical /\ forecastValue p = None /\
  exists x, original p = Some x /\ x <> NaN.

Let isForecast (p : Point) : Prop :=
  type p = forecast /\ original p = None /\
  exists x, forecastValue p = Some x /\ x <> NaN.

Lemma valid_inv (price : option num) (x : num) :
  valid price = Some x -> price = Some x /\ x <> NaN.
Proof.
  destruct price as [[q| | |]|]; cbn; intro H; inversion H; subst;
    split; congruence.
Qed.

Lemma historicalPoints_spec (len : nat) (timestamps : list string)
    (index : nat) (pricesFrom : list (option num)) :
  let points := historicalPoints clockLabel len timestamps index pricesFrom in
  map original points = map Some (validPrices pricesFrom) /\
  Forall isHistorical points /\
  (List.length points <= List.length pricesFrom)%nat.
Proof.
  revert index. induction pricesFrom as [|price rest IH]; intro index.
  - repeat split; constructor.
  - destruct (IH (S index)) as (Eo & Hk & Hl).
    cbn [historicalPoints validPrices]. destruct (valid price) as [x|] eqn:E.
    + apply valid_inv in E. destruct E as [_ Hx].
      cbn [app map List.length]. split; [f_equal; exact Eo|].
      split; [|lia]. constructor; [|exact Hk].
      repeat split. exists x. split; [reflexivity|exact Hx].
    + cbn [app List.length]. split; [exact Eo|]. split; [exact Hk|lia].
Qed.

Lemma forecastPoints_spec (l : list (option Forecast)) :
  Forall isForecast (forecastPoints l) /\
  (List.length (forecastPoints l) <= List.length l)%nat.
Proof.
  induction l as [|f rest [IH Hl]]; [split; constructor|].
  cbn [forecastPoints]. destruct f as [f'|]; [|cbn [app List.length]; split; [exact IH|lia]].
  destruct (valid (forecast_price f')) as [x|] eqn:E;
    [|cbn [app List.length]; split; [exact IH|lia]].
  apply valid_inv in E. destruct E as [_ Hx].
  cbn [app List.length]. split; [|lia]. constructor; [|exact IH].
  repeat split. exists x. split; [reflexivity|exact Hx].
Qed.

Lemma sliceLast_length (A : Type) (n : nat) (l : list A) :
  (List.length (sliceLast n l) <= n)%nat.
Proof.
  unfold sliceLast. rewrite length_skipn. lia.
Qed.

End ForecastChartFacts.

Section ForecastChartClaims.

Import PriceForecastChart.
Local Open Scope list_scope.

(** X15.  The points that [prepareChartData] gives the forecast chart
    come in three runs: at most 60 historical points, whose prices are
    the valid ones among the last 60 of the recent prices (of the
    historical prices when there are no recent ones), in their order and
    with no forecast value; then at most one point labelled Now that
    carries the current price on both lines; then at most one point per
    forecast, with a forecast value only.  No point carries [NaN]. *)
Theorem chart_points_layout (clockLabel : string -> string) (now : Date)
    (data : ForecastData) :
  let rawPrices := preferred (recent_prices data) (historical_prices data) in
  exists past present future,
    prepareChartData clockLabel now (Some data) = past ++ present ++ future /\
    map original past = map Some (validPrices (sliceLast 60 rawPrices)) /\
    Forall (fun p => type p = historical /\ forecastValue p = None) past /\
    (List.length past <= 60)%nat /\
    (List.length present <= 1)%nat /\
    Forall (fun p => type p = current /\ time p = "Now"%string /\
                     original p = forecastValue p /\
                     original p = current_price data) present /\
    Forall (fun p => type p = forecast /\ original p = None) future /\
    (List.length future
     <= List.length (preferred (forecasts data) None))%nat /\
    Forall (fun p => original p <> Some NaN /\ forecastValue p <> Some NaN)
      (past ++ present ++ future).
Proof.
  intro rawPrices.
  set (historicalPrices := sliceLast 60 rawPrices).
  set (historicalTimestamps :=
         sliceLast 60 (preferred (recent_timestamps data)
                         (historical_timestamps data))).
  destruct (@historicalPoints_spec clockLabel (List.length historicalPrices)
              historicalTimestamps 0 historicalPrices) as (Eo & Hk & Hl).
  destruct (forecastPoints_spec (preferred (forecasts data) None)) as [Hf Hfl].
  exists (historicalPoints clockLabel (List.length historicalPrices)
            historicalTimestamps 0 historicalPrices),
         (currentPoint now data),
         (forecastPoints (preferred (forecasts data) None)).
  assert (Hc : Forall (fun p => type p = current /\ time p = "Now"%string /\
                          original p = forecastValue p /\
                          original p = current_price data /\
                          original p <> Some NaN)
                 (currentPoint now data) /\
               (List.length (currentPoint now data) <= 1)%nat).
  { unfold currentPoint. destruct (valid (current_price data)) as [x|] eqn:E.
    - apply valid_inv in E. destruct E as [E Hx]. split; [|cbn; lia].
      constructor; [|constructor]. cbn [type time original forecastValue].
      repeat split; congruence.
    - split; [constructor|cbn; lia]. }
  destruct Hc as [Hc Hcl].
  split; [reflexivity|]. split; [exact Eo|]. split.
  { eapply Forall_impl; [|exact Hk]. intros p (H1 & H2 & _). split; assumption. }
  split; [eapply Nat.le_trans; [exact Hl|apply sliceLast_length]|].
  split; [exact Hcl|]. split.
  { eapply Forall_impl; [|exact Hc]. intros p (H1 & H2 & H3 & H4 & _).
    repeat split; assumption. }
  split.
  { eapply Forall_impl; [|exact Hf]. intros p (H1 & H2 & _). split; assumption. }
  split; [exact Hfl|].
  rewrite !Forall_app. split; [|split].
  - eapply Forall_impl; [|exact Hk]. intros p (_ & H2 & x & H3 & Hx).
    rewrite H2, H3. split; congruence.
  - eapply Forall_impl; [|exact Hc]. intros p (_ & _ & H3 & _ & H5).
    rewrite <- H3. split; exact H5.
  - eapply Forall_impl; [|exact Hf]. intros p (_ & H2 & x & H3 & Hx).
    rewrite H2, H3. split; congruence.
Qed.

End ForecastChartClaims.

Section BitcoinPriceFacts.

Import BitcoinRealTimePrice.
Local Open Scope list_scope.
Local Open Scope Q_scope.

(** What every call of the first render's [fetchPrice] keeps. *)
Let settled (s : State) : Prop :=
  priceDirection s = neutral /\ priceChange s = Fin 0 /\
  previousPrice s = currentPrice s /\ isLoading s = false.

Lemma fetchPrice_first_render (now : Date) (reply : option num) (s : State) :
  settled s -> settled (fst (fetchPrice initial now reply s)).
Proof.
  intros (Hd & Hc & Hp & Hl). unfold fetchPrice.
  destruct reply as [price|]; [|repeat split; assumption].
  destruct (Num.gt price (Fin 0)); repeat split; assumption.
Qed.

Lemma poll_settled (replies : list (Date * option num)) (s : State) :
  settled s -> settled (fst (poll replies s)).
Proof.
  revert s. induction replies as [|[now reply] rest IH]; intros s Hs.
  - exact Hs.
  - cbn [poll]. pose proof (@fetchPrice_first_render now reply s Hs) as H1.
    destruct (fetchPrice initial now reply s) as [s1 told1].
    specialize (IH s1 H1). destruct (poll rest s1) as [s2 told2]. exact IH.
Qed.

(** X16.  The interval of the live Bitcoin price calls the [fetchPrice]
    of the first render, in which the current price is 0.  Whatever
    prices arrive, and however many, the direction stays neutral, the
    change stays 0 and the previous price equals the current one. *)
Theorem direction_stays_neutral (replies : list (Date * option num)) :
  let s := fst (poll replies initial) in
  priceDirection s = neutral /\ priceChange s = Fin 0 /\
  previousPrice s = currentPrice s /\ isLoading s = false.
Proof.
  apply poll_settled. repeat split.
Qed.



End BitcoinPriceFacts.

Section PortfolioFacts.

Import PortfolioTracker.
Local Open Scope list_scope.
Local Open Scope Q_scope.

Lemma findIndex_some (A : Type) (f : A -> bool) (l : list A) (i : nat) :
  findIndex f l = Some i ->
  exists x, nth_error l i = Some x /\ f x = true.
Proof.
  revert i. induction l as [|y l IH]; intros i H; [discriminate|].
  cbn [findIndex] in H. destruct (f y) eqn:E.
  - injection H as <-. exists y. split; [reflexivity|exact E].
  - destruct (findIndex f l) as [j|]; [|discriminate].
    injection H as <-. apply (IH j). reflexivity.
Qed.

Lemma findIndex_none (A : Type) (f : A -> bool) (l : list A) :
  findIndex f l = None -> forall x, In x l -> f x = false.
Proof.
  induction l as [|y l IH]; intros H x Hx; [contradiction|].
  cbn [findIndex] in H. destruct (f y) eqn:E; [discriminate|].
  destruct (findIndex f l); [discriminate|].
  destruct Hx as [<-|Hx]; [exact E|apply IH; [reflexivity|exact Hx]].
Qed.

Lemma setAt_ids (i : nat) (x y : PortfolioHolding)
    (l : list PortfolioHolding) :
  nth_error l i = Some y -> id x = id y ->
  map id (setAt i x l) = map id l /\
  In x (setAt i x l) /\
  forall h, In h l -> id h <> id x -> In h (setAt i x l).
Proof.
  revert i. induction l as [|z l IH]; intros i Hn Hid; [destruct i; discriminate|].
  destruct i as [|i]; cbn [nth_error setAt map] in *.
  - injection Hn as ->. rewrite Hid. split; [reflexivity|].
    split; [left; reflexivity|]. intros h [<-|Hh] Hne; [congruence|].
    right. exact Hh.
  - destruct (IH i Hn Hid) as (E & Hin & Hk). rewrite E.
    split; [reflexivity|]. split; [right; exact Hin|].
    intros h [<-|Hh] Hne; [left; reflexivity|right; apply Hk; assumption].
Qed.

Lemma find_coin (coinId : string) (cryptoData : list Coin) (c : Coin) :
  find (fun coin => String.eqb (coin_id coin) coinId) cryptoData = Some c ->
  In c cryptoData /\ coin_id c = coinId.
Proof.
  intro H. apply find_some in H. destruct H as [Hin E].
  apply String.eqb_eq in E. split; assumption.
Qed.

End PortfolioFacts.

Section PortfolioClaims.

Import PortfolioTracker.
Local Open Scope list_scope.
Local Open Scope Q_scope.

(** X18.  [addHolding] keeps one holding per coin.  When it sets the
    portfolio, the coin of the form is one of [cryptoData]; a coin that
    is already held keeps its place, the ids of the portfolio being the
    same as before, and a coin that is not held is appended; every
    holding of another coin is kept as it is; and ids that were distinct
    are still distinct. *)
Theorem addHolding_one_per_coin (parseFloat : string -> num)
    (toUpperCase : string -> string) (newHolding : NewHolding)
    (cryptoData : list Coin) (portfolio portfolio' : list PortfolioHolding) :
  addHolding parseFloat toUpperCase newHolding cryptoData portfolio
  = SetPortfolio portfolio' ->
  In (coinId newHolding) (map coin_id cryptoData) /\
  In (coinId newHolding) (map id portfolio') /\
  (In (coinId newHolding) (map id portfolio) ->
   map id portfolio' = map id portfolio) /\
  (~ In (coinId newHolding) (map id portfolio) ->
   exists holding, portfolio' = portfolio ++ [holding] /\
                   id holding = coinId newHolding) /\
  (forall h, In h portfolio -> id h <> coinId newHolding -> In h portfolio') /\
  (NoDup (map id portfolio) -> NoDup (map id portfolio')).
Proof.
  unfold addHolding.
  destruct (String.eqb (coinId newHolding) "" || String.eqb (amountText newHolding) ""
            || String.eqb (purchasePriceText newHolding) "")%bool; [discriminate|].
  destruct (find _ cryptoData) as [selectedCoin|] eqn:Ef; [|discriminate].
  apply find_coin in Ef. destruct Ef as [Hin Eid].
  set (holding := holdingOf parseFloat toUpperCase newHolding selectedCoin).
  assert (Hid : id holding = coinId newHolding) by exact Eid.
  assert (Hcoin : In (coinId newHolding) (map coin_id cryptoData)).
  { rewrite <- Eid. apply in_map, Hin. }
  destruct (findIndex _ portfolio) as [existingIndex|] eqn:Ei.
  - apply findIndex_some in Ei. destruct Ei as (existing & En & Ee).
    apply String.eqb_eq in Ee. rewrite En. intro H. injection H as <-.
    assert (Hm : id (merged existing holding) = id existing)
      by (cbn [merged id]; congruence).
    destruct (@setAt_ids existingIndex (merged existing holding) existing
                portfolio En Hm) as (Eids & Hin' & Hkeep).
    split; [exact Hcoin|]. split.
    { rewrite Eids, <- Hid, <- Ee. apply in_map.
      eapply nth_error_In, En. }
    split; [intros _; exact Eids|]. split.
    { intro Hn. exfalso. apply Hn. rewrite <- Hid, <- Ee.
      apply in_map. eapply nth_error_In, En. }
    split; [|rewrite Eids; trivial].
    intros h Hh Hne. apply Hkeep; [exact Hh|]. rewrite Hm. congruence.
  - intro H. injection H as <-.
    assert (Hfresh : ~ In (coinId newHolding) (map id portfolio)).
    { intro Hc. apply in_map_iff in Hc. destruct Hc as (h & Eh & Hh).
      pose proof (findIndex_none _ _ Ei h Hh) as Hf. cbn beta in Hf.
      apply String.eqb_neq in Hf. congruence. }
    split; [exact Hcoin|]. split.
    { rewrite map_app, in_app_iff. right. left. exact Hid. }
    split; [intro Hc; contradiction|]. split.
    { intros _. exists holding. split; [reflexivity|exact Hid]. }
    split.
    { intros h Hh _. apply in_or_app. left. exact Hh. }
    intro Hnd. rewrite map_app. cbn [map].
    apply NoDup_app; [exact Hnd|repeat constructor; intros []|].
    intros x Hx [<-|[]]. rewrite Hid in Hx. contradiction.
Qed.

Lemma addHolding_one_per_coin_witness :
  let bitcoin :=
    {| coin_id := "bitcoin"; coin_symbol := "btc"; coin_name := "Bitcoin";
       current_price := Fin 110 |} in
  let form :=
    {| coinId := "bitcoin"; amountText := "2"; purchasePriceText := "100" |} in
  let parse := fun s : string => if String.eqb s "2" then Fin 2 else Fin 100 in
  let held := holdingOf parse (fun s => s) form bitcoin in
  map id [merged held held] = map id [held].
Proof.
  intros bitcoin form parse held.
  assert (E : addHolding parse (fun s => s) form [bitcoin] [held]
              = SetPortfolio [merged held held]) by reflexivity.
  destruct (addHolding_one_per_coin _ _ _ _ _ E) as (_ & _ & H & _).
  apply H. left. reflexivity.
Defined.









Lemma setAt_filter (f : PortfolioHolding -> bool) (i : nat)
    (x y : PortfolioHolding) (l : list PortfolioHolding) :
  nth_error l i = Some y -> f x = false -> f y = false ->
  filter f (setAt i x l) = filter f l.
Proof.
  revert i. induction l as [|z l IH]; intros i Hn Hx Hy; [destruct i; discriminate|].
  destruct i as [|i]; cbn [nth_error setAt filter] in *.
  - injection Hn as ->. rewrite Hx, Hy. reflexivity.
  - rewrite (IH i Hn Hx Hy). reflexivity.
Qed.

Lemma filter_all (A : Type) (f : A -> bool) (l : list A) :
  (forall x, In x l -> f x = true) -> filter f l = l.
Proof.
  induction l as [|x l IH]; intro H; [reflexivity|].
  cbn [filter]. rewrite (H x (or_introl eq_refl)), IH; [reflexivity|].
  intros y Hy. apply H. right. exact Hy.
Qed.

(** X21.  Removing the coin that [addHolding] has just added or merged
    removes the whole holding: what is left is what removing the coin
    from the portfolio before the purchase leaves, so that a first
    purchase is undone exactly, and a merged one takes the earlier
    purchases of the coin with it. *)
Theorem remove_after_add (parseFloat : string -> num)
    (toUpperCase : string -> string) (newHolding : NewHolding)
    (cryptoData : list Coin) (portfolio portfolio' : list PortfolioHolding) :
  addHolding parseFloat toUpperCase newHolding cryptoData portfolio
  = SetPortfolio portfolio' ->
  removeHolding (coinId newHolding) portfolio'
  = removeHolding (coinId newHolding) portfolio /\
  (~ In (coinId newHolding) (map id portfolio) ->
   removeHolding (coinId newHolding) portfolio' = portfolio) /\
  ~ In (coinId newHolding)
      (map id (removeHolding (coinId newHolding) portfolio')).
Proof.
  intro H.
  assert (Hrem : removeHolding (coinId newHolding) portfolio'
                 = removeHolding (coinId newHolding) portfolio).
  { revert H. unfold addHolding.
    destruct (String.eqb (coinId newHolding) "" || String.eqb (amountText newHolding) ""
              || String.eqb (purchasePriceText newHolding) "")%bool; [discriminate|].
    destruct (find _ cryptoData) as [selectedCoin|] eqn:Ef; [|discriminate].
    apply find_coin in Ef. destruct Ef as [_ Eid].
    set (holding := holdingOf parseFloat toUpperCase newHolding selectedCoin).
    assert (Hid : id holding = coinId newHolding) by exact Eid.
    destruct (findIndex _ portfolio) as [existingIndex|] eqn:Ei.
    - apply findIndex_some in Ei. destruct Ei as (existing & En & Ee).
      apply String.eqb_eq in Ee. rewrite En. intro H. injection H as <-.
      unfold removeHolding. eapply setAt_filter; [exact En| |].
      + cbn [merged id]. rewrite Hid, String.eqb_refl. reflexivity.
      + rewrite Ee, Hid, String.eqb_refl. reflexivity.
    - intro H. injection H as <-. unfold removeHolding.
      rewrite filter_app. cbn [filter]. rewrite Hid, String.eqb_refl.
      cbn [negb]. apply app_nil_r. }
  split; [exact Hrem|]. split.
  - intro Hfresh. rewrite Hrem. unfold removeHolding. apply filter_all.
    intros h Hh. apply Bool.negb_true_iff, String.eqb_neq. intro E.
    apply Hfresh. rewrite <- E. apply in_map, Hh.
  - intro Hin. apply in_map_iff in Hin. destruct Hin as (h & Eh & Hh).
    unfold removeHolding in Hh. apply filter_In in Hh. destruct Hh as [_ Hh].
    apply Bool.negb_true_iff, String.eqb_neq in Hh. contradiction.
Qed.

Lemma remove_after_add_witness :
  let bitcoin :=
    {| coin_id := "bitcoin"; coin_symbol := "btc"; coin_name := "Bitcoin";
       current_price := Fin 110 |} in
  let form :=
    {| coinId := "bitcoin"; amountText := "2"; purchasePriceText := "100" |} in
  let parse := fun s : string => if String.eqb s "2" then Fin 2 else Fin 100 in
  removeHolding "bitcoin" [holdingOf parse (fun s => s) form bitcoin] = [].
Proof.
  intros bitcoin form parse.
  assert (E : addHolding parse (fun s => s) form [bitcoin] []
              = SetPortfolio [holdingOf parse (fun s => s) form bitcoin])
    by reflexivity.
  exact (proj1 (remove_after_add _ _ _ _ _ E)).
Defined.

End PortfolioClaims.

Section AdvancedMetricsFacts.

Import BitcoinAdvancedMetrics.
Local Open Scope list_scope.
Local Open Scope Q_scope.





End AdvancedMetricsFacts.
